(** * Texas Instruments ADS79XX SPI ADC driver (linux/iio/ti-ads79xx.c)

    A shallow embedding of the driver's channel tables, command words,
    scan-mode set-up, trigger handler, single-shot read, range computation
    and [read_raw], with the properties of its specification. *)

From Stdlib Require Import ZArith Lia List Bool Ascii Sorted.
From stdpp Require Import base tactics option list.

Local Open Scope Z_scope.

(** ** C integer types

    The driver computes in [int] and [unsigned int] (32 bits) and stores
    into [u16] fields; each conversion is written out. *)

Module CInt.

(** Value stored by an assignment to a [u16] lvalue. *)
Definition to_u16 (x : Z) : Z := x mod 2 ^ 16.

(** Value of an [unsigned int] expression. *)
Definition to_u32 (x : Z) : Z := x mod 2 ^ 32.

(** Value of a conversion to [int] (two's complement wrap-around). *)
Definition to_int (x : Z) : Z := (x + 2 ^ 31) mod 2 ^ 32 - 2 ^ 31.

Definition INT_MIN : Z := - 2 ^ 31.
Definition INT_MAX : Z := 2 ^ 31 - 1.

Definition int_range (x : Z) : Prop := INT_MIN <= x <= INT_MAX.

(** C's [/] on [int]: truncation towards zero. *)
Definition int_div (a b : Z) : Z := to_int (Z.quot a b).

Definition int_mul (a b : Z) : Z := to_int (a * b).

End CInt.
Import CInt.

(** ** Control-register bits and the [EXTRACT] macro *)

Definition ADS79XX_CR_MANUAL : Z := Z.shiftl 1 12.
Definition ADS79XX_CR_WRITE : Z := Z.shiftl 1 11.
Definition ADS79XX_CR_CHAN (ch : Z) : Z := Z.shiftl ch 7.
Definition ADS79XX_CR_RANGE_5V : Z := Z.shiftl 1 6.

Definition ADS79XX_MAX_CHAN : Z := 16.

(** val = value, dec = left shift, bits = number of bits of the mask *)
Definition EXTRACT (val dec bits : Z) : Z :=
  Z.land (Z.shiftr val dec) (Z.shiftl 1 bits - 1).

(** The command word both [ti_ads79xx_update_scan_mode] and
    [ti_ads79xx_scan_direct] build:
    [ADS79XX_CR_WRITE | ADS79XX_CR_CHAN(ch) | st->settings].
    [settings] is an [unsigned int], so the expression is one too. *)
Definition ads79xx_cmd (ch settings : Z) : Z :=
  to_u32 (Z.lor (Z.lor ADS79XX_CR_WRITE (to_u32 (ADS79XX_CR_CHAN ch))) settings).

(** ** Channel tables *)

Inductive iio_chan_type := IIO_VOLTAGE | IIO_TIMESTAMP.

Inductive iio_endian := IIO_CPU | IIO_BE | IIO_LE.

Record iio_scan_type := {
  sign : Ascii.ascii;
  realbits : Z;
  storagebits : Z;
  shift : Z;
  endianness : iio_endian;
}.

Record iio_chan_spec := {
  type : iio_chan_type;
  indexed : bool;
  channel : Z;
  address : Z;
  scan_index : Z;
  scan_type : iio_scan_type;
}.

Definition ADS79XX_V_CHAN (index bits : Z) : iio_chan_spec := {|
  type := IIO_VOLTAGE;
  indexed := true;
  channel := index;
  address := index;
  scan_index := index;
  scan_type := {|
    sign := "u"%char;
    realbits := bits;
    storagebits := 16;
    shift := 12 - bits;
    endianness := IIO_CPU;
  |};
|}.

(** The kernel's [IIO_CHAN_SOFT_TIMESTAMP(_si)] (linux/iio/iio.h): a signed
    64-bit timestamp channel with channel number -1 and the remaining
    fields zero. *)
Definition IIO_CHAN_SOFT_TIMESTAMP (si : Z) : iio_chan_spec := {|
  type := IIO_TIMESTAMP;
  indexed := false;
  channel := -1;
  address := 0;
  scan_index := si;
  scan_type := {|
    sign := "s"%char;
    realbits := 64;
    storagebits := 64;
    shift := 0;
    endianness := IIO_CPU;
  |};
|}.

Definition DECLARE_ADS79XX_4_CHANNELS (bits : Z) : list iio_chan_spec :=
  [ ADS79XX_V_CHAN 0 bits; ADS79XX_V_CHAN 1 bits;
    ADS79XX_V_CHAN 2 bits; ADS79XX_V_CHAN 3 bits;
    IIO_CHAN_SOFT_TIMESTAMP 4 ].

Definition DECLARE_ADS79XX_8_CHANNELS (bits : Z) : list iio_chan_spec :=
  [ ADS79XX_V_CHAN 0 bits; ADS79XX_V_CHAN 1 bits;
    ADS79XX_V_CHAN 2 bits; ADS79XX_V_CHAN 3 bits;
    ADS79XX_V_CHAN 4 bits; ADS79XX_V_CHAN 5 bits;
    ADS79XX_V_CHAN 6 bits; ADS79XX_V_CHAN 7 bits;
    IIO_CHAN_SOFT_TIMESTAMP 8 ].

Definition DECLARE_ADS79XX_12_CHANNELS (bits : Z) : list iio_chan_spec :=
  [ ADS79XX_V_CHAN 0 bits; ADS79XX_V_CHAN 1 bits;
    ADS79XX_V_CHAN 2 bits; ADS79XX_V_CHAN 3 bits;
    ADS79XX_V_CHAN 4 bits; ADS79XX_V_CHAN 5 bits;
    ADS79XX_V_CHAN 6 bits; ADS79XX_V_CHAN 7 bits;
    ADS79XX_V_CHAN 8 bits; ADS79XX_V_CHAN 9 bits;
    ADS79XX_V_CHAN 10 bits; ADS79XX_V_CHAN 11 bits;
    IIO_CHAN_SOFT_TIMESTAMP 12 ].

Definition DECLARE_ADS79XX_16_CHANNELS (bits : Z) : list iio_chan_spec :=
  [ ADS79XX_V_CHAN 0 bits; ADS79XX_V_CHAN 1 bits;
    ADS79XX_V_CHAN 2 bits; ADS79XX_V_CHAN 3 bits;
    ADS79XX_V_CHAN 4 bits; ADS79XX_V_CHAN 5 bits;
    ADS79XX_V_CHAN 6 bits; ADS79XX_V_CHAN 7 bits;
    ADS79XX_V_CHAN 8 bits; ADS79XX_V_CHAN 9 bits;
    ADS79XX_V_CHAN 10 bits; ADS79XX_V_CHAN 11 bits;
    ADS79XX_V_CHAN 12 bits; ADS79XX_V_CHAN 13 bits;
    ADS79XX_V_CHAN 14 bits; ADS79XX_V_CHAN 15 bits;
    IIO_CHAN_SOFT_TIMESTAMP 16 ].

Definition ti_ads7950_channels := DECLARE_ADS79XX_4_CHANNELS 12.
Definition ti_ads7951_channels := DECLARE_ADS79XX_8_CHANNELS 12.
Definition ti_ads7952_channels := DECLARE_ADS79XX_12_CHANNELS 12.
Definition ti_ads7953_channels := DECLARE_ADS79XX_16_CHANNELS 12.
Definition ti_ads7954_channels := DECLARE_ADS79XX_4_CHANNELS 10.
Definition ti_ads7955_channels := DECLARE_ADS79XX_8_CHANNELS 10.
Definition ti_ads7956_channels := DECLARE_ADS79XX_12_CHANNELS 10.
Definition ti_ads7957_channels := DECLARE_ADS79XX_16_CHANNELS 10.
Definition ti_ads7958_channels := DECLARE_ADS79XX_4_CHANNELS 8.
Definition ti_ads7959_channels := DECLARE_ADS79XX_8_CHANNELS 8.
Definition ti_ads7960_channels := DECLARE_ADS79XX_12_CHANNELS 8.
Definition ti_ads7961_channels := DECLARE_ADS79XX_16_CHANNELS 8.

Inductive ti_ads79xx_id :=
| ADS7950 | ADS7951 | ADS7952 | ADS7953
| ADS7954 | ADS7955 | ADS7956 | ADS7957
| ADS7958 | ADS7959 | ADS7960 | ADS7961.

Record ti_ads79xx_chip_info_t := {
  channels : list iio_chan_spec;
  num_channels : Z;
}.

Definition ARRAY_SIZE {A} (l : list A) : Z := Z.of_nat (length l).

Definition ti_ads79xx_chip_info (id : ti_ads79xx_id) : ti_ads79xx_chip_info_t :=
  let entry chans := {| channels := chans; num_channels := ARRAY_SIZE chans |} in
  match id with
  | ADS7950 => entry ti_ads7950_channels
  | ADS7951 => entry ti_ads7951_channels
  | ADS7952 => entry ti_ads7952_channels
  | ADS7953 => entry ti_ads7953_channels
  | ADS7954 => entry ti_ads7954_channels
  | ADS7955 => entry ti_ads7955_channels
  | ADS7956 => entry ti_ads7956_channels
  | ADS7957 => entry ti_ads7957_channels
  | ADS7958 => entry ti_ads7958_channels
  | ADS7959 => entry ti_ads7959_channels
  | ADS7960 => entry ti_ads7960_channels
  | ADS7961 => entry ti_ads7961_channels
  end.

(** The resolution each variant is declared with (second argument of its
    [DECLARE_ADS79XX_n_CHANNELS] line). *)
Definition variant_bits (id : ti_ads79xx_id) : Z :=
  match id with
  | ADS7950 | ADS7951 | ADS7952 | ADS7953 => 12
  | ADS7954 | ADS7955 | ADS7956 | ADS7957 => 10
  | ADS7958 | ADS7959 | ADS7960 | ADS7961 => 8
  end.

(** The voltage channels of a variant: its table without the timestamp. *)
Definition voltage_channels (id : ti_ads79xx_id) : list iio_chan_spec :=
  List.filter (fun c => match type c with IIO_VOLTAGE => true | _ => false end)
         (channels (ti_ads79xx_chip_info id)).

Definition num_voltage_channels (id : ti_ads79xx_id) : Z :=
  ARRAY_SIZE (voltage_channels id).

(** ** Driver state *)

(** The buffers of [struct ti_ads79xx_state] an SPI transfer can point at. *)
Inductive buf_ref := TX_BUF | RX_BUF | SINGLE_TX | SINGLE_RX.

Module Spi.

(** [struct spi_transfer], the fields the driver sets.  A null buffer
    pointer is [None]. *)
Record transfer := {
  tx_buf : option buf_ref;
  rx_buf : option buf_ref;
  len : Z;
  cs_change : bool;
}.

Definition zero_transfer : transfer :=
  {| tx_buf := None; rx_buf := None; len := 0; cs_change := false |}.

(** A message links the transfers it was given; the driver's messages
    point into its own state, so a message is the list of the transfer
    slots it references and sees later writes to them. *)
Inductive xfer_ref := RING_XFER | SCAN_SINGLE_XFER (i : nat).

Definition message := list xfer_ref.

(** What the bus answers to one [spi_sync]: the return code and the
    16-bit words clocked in, by word position within the message. *)
Record reply := {
  ret : Z;
  miso : nat -> Z;
}.

End Spi.

Record ti_ads79xx_state := {
  ring_xfer : Spi.transfer;
  scan_single_xfer : list Spi.transfer;
  ring_msg : Spi.message;
  scan_single_msg : Spi.message;
  single_tx : Z;
  single_rx : Z;
  reg : Z;
  hrtimer_trigger : Z;
  settings : Z;
  rx_buf : list Z;
  tx_buf : list Z;
}.

Definition RX_BUF_SIZE : Z := ADS79XX_MAX_CHAN + 10.
Definition TX_BUF_SIZE : Z := ADS79XX_MAX_CHAN + 2.

(** [struct iio_dev]: the channel table and its size, which the operations
    read, and the private state ([iio_priv]). *)
Record iio_dev := {
  dev_channels : list iio_chan_spec;
  dev_num_channels : Z;
  priv : ti_ads79xx_state;
}.

(** Calls into the kernel, in the order the driver makes them. *)
Inductive kcall :=
| k_spi_setup
| k_devm_iio_device_alloc
| k_devm_regulator_get
| k_regulator_enable
| k_regulator_disable
| k_regulator_get_voltage
| k_iio_triggered_buffer_setup
| k_iio_triggered_buffer_cleanup
| k_iio_device_register
| k_iio_device_unregister
| k_iio_sw_trigger_create
| k_iio_sw_trigger_destroy
| k_iio_trigger_set_immutable
| k_dev_err
| k_mutex_lock
| k_mutex_unlock
| k_spi_sync (mosi : list Z)
| k_iio_push_to_buffers_with_timestamp (offset : Z) (data : list Z) (timestamp : Z)
| k_iio_trigger_notify_done.

Record machine := {
  indio_dev : iio_dev;
  klog : list kcall;
}.

(** ** The driver monad

    Driver code reads and writes the machine; [None] is undefined
    behaviour (an access outside a buffer). *)

Definition drv (A : Type) : Type := machine -> option (A * machine).

#[global] Instance drv_ret : MRet drv := fun A a m => Some (a, m).

#[global] Instance drv_bind : MBind drv := fun A B f c m =>
  match c m with
  | Some (a, m') => f a m'
  | None => None
  end.

Definition undefined {A} : drv A := fun _ => None.

Definition get_st : drv ti_ads79xx_state := fun m => Some (priv (indio_dev m), m).

(** Update of the private state inside a machine. *)
Definition with_st (f : ti_ads79xx_state -> ti_ads79xx_state) (m : machine) : machine :=
  {| indio_dev := {| dev_channels := dev_channels (indio_dev m);
                     dev_num_channels := dev_num_channels (indio_dev m);
                     priv := f (priv (indio_dev m)) |};
     klog := klog m |}.

Definition put_st (st : ti_ads79xx_state) : drv unit := fun m =>
  Some (tt, with_st (fun _ => st) m).

Definition get_dev : drv iio_dev := fun m => Some (indio_dev m, m).

(** The machine after one more kernel call. *)
Definition log_call (c : kcall) (m : machine) : machine :=
  {| indio_dev := indio_dev m; klog := klog m ++ [c] |}.

Definition kernel (c : kcall) : drv unit := fun m => Some (tt, log_call c m).

(** Field assignments [st->f = v]. *)
Definition set_ring_xfer (v : Spi.transfer) (st : ti_ads79xx_state) :=
  {| ring_xfer := v; scan_single_xfer := scan_single_xfer st;
     ring_msg := ring_msg st; scan_single_msg := scan_single_msg st;
     single_tx := single_tx st; single_rx := single_rx st; reg := reg st;
     hrtimer_trigger := hrtimer_trigger st; settings := settings st;
     rx_buf := rx_buf st; tx_buf := tx_buf st |}.

Definition set_scan_single_xfer (v : list Spi.transfer) (st : ti_ads79xx_state) :=
  {| ring_xfer := ring_xfer st; scan_single_xfer := v;
     ring_msg := ring_msg st; scan_single_msg := scan_single_msg st;
     single_tx := single_tx st; single_rx := single_rx st; reg := reg st;
     hrtimer_trigger := hrtimer_trigger st; settings := settings st;
     rx_buf := rx_buf st; tx_buf := tx_buf st |}.

Definition set_ring_msg (v : Spi.message) (st : ti_ads79xx_state) :=
  {| ring_xfer := ring_xfer st; scan_single_xfer := scan_single_xfer st;
     ring_msg := v; scan_single_msg := scan_single_msg st;
     single_tx := single_tx st; single_rx := single_rx st; reg := reg st;
     hrtimer_trigger := hrtimer_trigger st; settings := settings st;
     rx_buf := rx_buf st; tx_buf := tx_buf st |}.

Definition set_scan_single_msg (v : Spi.message) (st : ti_ads79xx_state) :=
  {| ring_xfer := ring_xfer st; scan_single_xfer := scan_single_xfer st;
     ring_msg := ring_msg st; scan_single_msg := v;
     single_tx := single_tx st; single_rx := single_rx st; reg := reg st;
     hrtimer_trigger := hrtimer_trigger st; settings := settings st;
     rx_buf := rx_buf st; tx_buf := tx_buf st |}.

Definition set_single_tx (v : Z) (st : ti_ads79xx_state) :=
  {| ring_xfer := ring_xfer st; scan_single_xfer := scan_single_xfer st;
     ring_msg := ring_msg st; scan_single_msg := scan_single_msg st;
     single_tx := v; single_rx := single_rx st; reg := reg st;
     hrtimer_trigger := hrtimer_trigger st; settings := settings st;
     rx_buf := rx_buf st; tx_buf := tx_buf st |}.

Definition set_single_rx (v : Z) (st : ti_ads79xx_state) :=
  {| ring_xfer := ring_xfer st; scan_single_xfer := scan_single_xfer st;
     ring_msg := ring_msg st; scan_single_msg := scan_single_msg st;
     single_tx := single_tx st; single_rx := v; reg := reg st;
     hrtimer_trigger := hrtimer_trigger st; settings := settings st;
     rx_buf := rx_buf st; tx_buf := tx_buf st |}.

Definition set_reg (v : Z) (st : ti_ads79xx_state) :=
  {| ring_xfer := ring_xfer st; scan_single_xfer := scan_single_xfer st;
     ring_msg := ring_msg st; scan_single_msg := scan_single_msg st;
     single_tx := single_tx st; single_rx := single_rx st; reg := v;
     hrtimer_trigger := hrtimer_trigger st; settings := settings st;
     rx_buf := rx_buf st; tx_buf := tx_buf st |}.

Definition set_hrtimer_trigger (v : Z) (st : ti_ads79xx_state) :=
  {| ring_xfer := ring_xfer st; scan_single_xfer := scan_single_xfer st;
     ring_msg := ring_msg st; scan_single_msg := scan_single_msg st;
     single_tx := single_tx st; single_rx := single_rx st; reg := reg st;
     hrtimer_trigger := v; settings := settings st;
     rx_buf := rx_buf st; tx_buf := tx_buf st |}.

Definition set_settings (v : Z) (st : ti_ads79xx_state) :=
  {| ring_xfer := ring_xfer st; scan_single_xfer := scan_single_xfer st;
     ring_msg := ring_msg st; scan_single_msg := scan_single_msg st;
     single_tx := single_tx st; single_rx := single_rx st; reg := reg st;
     hrtimer_trigger := hrtimer_trigger st; settings := v;
     rx_buf := rx_buf st; tx_buf := tx_buf st |}.

Definition set_rx_buf (v : list Z) (st : ti_ads79xx_state) :=
  {| ring_xfer := ring_xfer st; scan_single_xfer := scan_single_xfer st;
     ring_msg := ring_msg st; scan_single_msg := scan_single_msg st;
     single_tx := single_tx st; single_rx := single_rx st; reg := reg st;
     hrtimer_trigger := hrtimer_trigger st; settings := settings st;
     rx_buf := v; tx_buf := tx_buf st |}.

Definition set_tx_buf (v : list Z) (st : ti_ads79xx_state) :=
  {| ring_xfer := ring_xfer st; scan_single_xfer := scan_single_xfer st;
     ring_msg := ring_msg st; scan_single_msg := scan_single_msg st;
     single_tx := single_tx st; single_rx := single_rx st; reg := reg st;
     hrtimer_trigger := hrtimer_trigger st; settings := settings st;
     rx_buf := rx_buf st; tx_buf := v |}.

Definition modify_st (f : ti_ads79xx_state -> ti_ads79xx_state) : drv unit :=
  st ← get_st; put_st (f st).

(** [a[i] = v] on an array of [size] elements holding 16-bit words. *)
Definition array_store (size : Z) (a : list Z) (i v : Z) : option (list Z) :=
  if decide (0 <= i < size) then Some (<[Z.to_nat i := to_u16 v]> a) else None.

(** [st->tx_buf[i] = v] *)
Definition tx_buf_store (i v : Z) : drv unit :=
  st ← get_st;
  match array_store TX_BUF_SIZE (tx_buf st) i v with
  | Some a => put_st (set_tx_buf a st)
  | None => undefined
  end.

(** ** Kernel constants

    Values of the kernel headers the driver is compiled against; the driver
    only names them. *)

Class linux_abi := {
  EAGAIN : Z;
  EINVAL : Z;
  ENOMEM : Z;
  EPROBE_DEFER : Z;
  MAX_ERRNO : Z;
  IIO_VAL_INT : Z;
  IIO_VAL_FRACTIONAL : Z;
  IIO_CHAN_INFO_RAW : Z;
  IIO_CHAN_INFO_SCALE : Z;
  IRQ_HANDLED : Z;
}.

(** The values of Linux 4.x (errno-base.h, errno.h, err.h, iio/types.h,
    iio/iio.h, irqreturn.h). *)
Definition linux_4 : linux_abi := {|
  EAGAIN := 11;
  EINVAL := 22;
  ENOMEM := 12;
  EPROBE_DEFER := 517;
  MAX_ERRNO := 4095;
  IIO_VAL_INT := 1;
  IIO_VAL_FRACTIONAL := 10;
  IIO_CHAN_INFO_RAW := 0;
  IIO_CHAN_INFO_SCALE := 2;
  IRQ_HANDLED := 1;
|}.

(** ** The SPI core

    [spi_sync] is kernel code; the driver relies on this much of it: with
    16-bit words a transfer of [len] bytes moves [len / 2] words, out of its
    [tx_buf] (zeros when null) and into its [rx_buf] (dropped when null),
    the transfers of a message one after the other; a non-zero return code
    means failure. *)

Definition buf_size (b : buf_ref) : Z :=
  match b with
  | TX_BUF => TX_BUF_SIZE
  | RX_BUF => RX_BUF_SIZE
  | SINGLE_TX | SINGLE_RX => 1
  end.

Definition buf_words (b : buf_ref) (st : ti_ads79xx_state) : list Z :=
  match b with
  | TX_BUF => tx_buf st
  | RX_BUF => rx_buf st
  | SINGLE_TX => [single_tx st]
  | SINGLE_RX => [single_rx st]
  end.

Definition set_buf_words (b : buf_ref) (ws : list Z) (st : ti_ads79xx_state)
  : ti_ads79xx_state :=
  match b with
  | TX_BUF => set_tx_buf ws st
  | RX_BUF => set_rx_buf ws st
  | SINGLE_TX => set_single_tx (hd 0 ws) st
  | SINGLE_RX => set_single_rx (hd 0 ws) st
  end.

(** The first [n] words of buffer [b]. *)
Definition load_words (b : buf_ref) (n : Z) : drv (list Z) :=
  st ← get_st;
  if decide (0 <= n <= buf_size b)
  then mret (take (Z.to_nat n) (buf_words b st))
  else undefined.

(** Overwrite the first words of buffer [b] with [ws]. *)
Definition store_words (b : buf_ref) (ws : list Z) : drv unit :=
  st ← get_st;
  if decide (Z.of_nat (length ws) <= buf_size b)
  then put_st (set_buf_words b
                 (map to_u16 ws ++ drop (length ws) (buf_words b st)) st)
  else undefined.

Definition lookup_xfer (r : Spi.xfer_ref) (st : ti_ads79xx_state)
  : option Spi.transfer :=
  match r with
  | Spi.RING_XFER => Some (ring_xfer st)
  | Spi.SCAN_SINGLE_XFER i => scan_single_xfer st !! i
  end.

(** Runs the transfers [xs], the first at word position [pos] of the
    message; returns the words sent. *)
Fixpoint spi_transfers (xs : list Spi.xfer_ref) (pos : nat) (miso : nat -> Z)
  : drv (list Z) :=
  match xs with
  | [] => mret []
  | r :: xs' =>
      st ← get_st;
      match lookup_xfer r st with
      | None => undefined
      | Some x =>
          let n := Spi.len x / 2 in
          sent ← match Spi.tx_buf x with
                 | Some b => load_words b n
                 | None => mret (replicate (Z.to_nat n) 0)
                 end;
          match Spi.rx_buf x with
          | Some b => store_words b (map miso (seq pos (Z.to_nat n)))
          | None => mret tt
          end;;
          rest ← spi_transfers xs' (pos + Z.to_nat n) miso;
          mret (sent ++ rest)
      end
  end.

Definition spi_sync (msg : Spi.message) (reply : Spi.reply) : drv Z :=
  if decide (Spi.ret reply = 0)
  then mosi ← spi_transfers msg 0 (Spi.miso reply);
       kernel (k_spi_sync mosi);;
       mret 0
  else kernel (k_spi_sync []);;
       mret (Spi.ret reply).

(** ** The driver's operations *)

(** [for_each_set_bit(bit, addr, size)] (linux/bitops.h): the body runs for
    every set bit of the bitmap below [size], lowest first.  [acc] is the
    local state the body updates. *)
Fixpoint for_each_set_bit_from {A} (addr : Z) (bit : Z) (n : nat)
    (body : Z -> A -> drv A) (acc : A) : drv A :=
  match n with
  | O => mret acc
  | S n' =>
      acc' ← (if Z.testbit addr bit then body bit acc else mret acc);
      for_each_set_bit_from addr (bit + 1) n' body acc'
  end.

Definition for_each_set_bit {A} (addr size : Z)
    (body : Z -> A -> drv A) (acc : A) : drv A :=
  for_each_set_bit_from addr 0 (Z.to_nat size) body acc.

Definition set_ring_xfer_len (v : Z) (st : ti_ads79xx_state) :=
  set_ring_xfer {| Spi.tx_buf := Spi.tx_buf (ring_xfer st);
                   Spi.rx_buf := Spi.rx_buf (ring_xfer st);
                   Spi.len := v;
                   Spi.cs_change := Spi.cs_change (ring_xfer st) |} st.

(** [ti_ads79xx_update_scan_mode()] setup the spi transfer buffer for the
    new scan mask.  The bitmap [active_scan_mask] is a non-negative
    integer, bit [i] for scan index [i]. *)
Definition ti_ads79xx_update_scan_mode (active_scan_mask : Z) : drv Z :=
  dev ← get_dev;
  len ← for_each_set_bit active_scan_mask (dev_num_channels dev)
          (fun i len =>
             st ← get_st;
             let cmd := to_int (ads79xx_cmd i (settings st)) in
             tx_buf_store len cmd;;
             mret (len + 1))
          0;
  tx_buf_store len 0;;
  tx_buf_store (len + 1) 0;;
  let len := len + 2 in
  modify_st (set_ring_xfer_len (to_u32 (len * 2)));;
  mret 0.

Section Driver.

Context {abi : linux_abi}.

(** [ti_ads79xx_trigger_handler()] bh of trigger launched polling to ring
    buffer.  [reply] is the bus's answer to the transfer, [now] the value
    of [iio_get_time_ns]. *)
Definition ti_ads79xx_trigger_handler (reply : Spi.reply) (now : Z) : drv Z :=
  st ← get_st;
  err ← spi_sync (ring_msg st) reply;
  (if decide (err ≠ 0) then mret tt
   else
     st ← get_st;
     kernel (k_iio_push_to_buffers_with_timestamp 2 (drop 2 (rx_buf st)) now));;
  kernel k_iio_trigger_notify_done;;
  mret IRQ_HANDLED.

Definition ti_ads79xx_scan_direct (ch : Z) (reply : Spi.reply) : drv Z :=
  kernel k_mutex_lock;;
  modify_st (fun st => set_single_tx (to_u16 (ads79xx_cmd ch (settings st))) st);;
  st ← get_st;
  ret ← spi_sync (scan_single_msg st) reply;
  ret ← (if decide (ret ≠ 0) then mret ret
         else
           st ← get_st;
           (* returned data for wrong channel for some reason? *)
           if decide (EXTRACT (single_rx st) 12 4 ≠ ch)
           then mret (- EAGAIN)
           else mret (EXTRACT (single_rx st) 0 12));
  kernel k_mutex_unlock;;
  mret ret.

(** [voltage] is what [regulator_get_voltage] returns. *)
Definition ti_ads79xx_get_range (voltage : Z) : drv Z :=
  st ← get_st;
  kernel k_regulator_get_voltage;;
  let vref := voltage in
  if decide (vref < 0) then mret vref
  else
    let vref := int_div vref 1000 in
    let vref :=
      if decide (Z.land (settings st) ADS79XX_CR_RANGE_5V ≠ 0)
      then int_mul vref 2 else vref in
    mret vref.

(** The outputs [*val] and [*val2] are passed in and returned with the
    return code, so a path that does not write one leaves it as it was. *)
Definition ti_ads79xx_read_raw (chan : iio_chan_spec) (val val2 : Z) (m : Z)
    (reply : Spi.reply) (voltage : Z) : drv (Z * Z * Z) :=
  if decide (m = IIO_CHAN_INFO_RAW) then
    ret ← ti_ads79xx_scan_direct (to_u32 (address chan)) reply;
    if decide (ret < 0) then mret (ret, val, val2)
    else
      let val := to_int (Z.shiftr ret (shift (scan_type chan))) in
      mret (IIO_VAL_INT, val, val2)
  else if decide (m = IIO_CHAN_INFO_SCALE) then
    ret ← ti_ads79xx_get_range voltage;
    if decide (ret < 0) then mret (ret, val, val2)
    else
      let val := ret in
      let val2 := to_int (to_int (Z.shiftl 1 (realbits (scan_type chan))) - 1) in
      mret (IIO_VAL_FRACTIONAL, val, val2)
  else mret (- EINVAL, val, val2).

(** What the kernel answers during one [ti_ads79xx_probe]: return codes,
    and pointers as signed machine words ([ERR_PTR] values are the small
    negative ones). *)
Record probe_env := {
  spi_setup_ret : Z;
  devm_iio_device_alloc_ok : bool;
  devm_regulator_get_ptr : Z;
  regulator_enable_ret : Z;
  iio_triggered_buffer_setup_ret : Z;
  iio_device_register_ret : Z;
  iio_sw_trigger_create_ptr : Z;
}.

Definition IS_ERR (p : Z) : bool := (- MAX_ERRNO <=? p) && (p <? 0).
Definition PTR_ERR (p : Z) : Z := p.

Definition set_dev_channels (info : ti_ads79xx_chip_info_t) : drv unit :=
  fun m =>
    Some (tt, {| indio_dev := {| dev_channels := channels info;
                                 dev_num_channels := num_channels info;
                                 priv := priv (indio_dev m) |};
                 klog := klog m |}).

Definition single_xfer (tx rx : option buf_ref) : Spi.transfer :=
  {| Spi.tx_buf := tx; Spi.rx_buf := rx; Spi.len := 2; Spi.cs_change := true |}.

(** The unwinding labels of [ti_ads79xx_probe]. *)
Definition error_disable_reg (ret : Z) : drv Z :=
  kernel k_regulator_disable;;
  mret ret.

Definition error_cleanup_ring (ret : Z) : drv Z :=
  kernel k_iio_triggered_buffer_cleanup;;
  error_disable_reg ret.

Definition error_unregister_iio_device (ret : Z) : drv Z :=
  kernel k_iio_device_unregister;;
  error_cleanup_ring ret.

(** [ti_ads79xx_probe] for the device id [id]; it runs on the zeroed
    memory [devm_iio_device_alloc] hands out.  The assignments of [st->spi]
    and of the name, parent, modes and info of the device are left out: no
    operation reads them. *)
Definition ti_ads79xx_probe (id : ti_ads79xx_id) (env : probe_env) : drv Z :=
  kernel k_spi_setup;;
  let ret := spi_setup_ret env in
  if decide (ret < 0) then kernel k_dev_err;; mret ret
  else
  kernel k_devm_iio_device_alloc;;
  if negb (devm_iio_device_alloc_ok env) then mret (- ENOMEM)
  else
  modify_st (set_settings (to_u32 (Z.lor ADS79XX_CR_MANUAL ADS79XX_CR_RANGE_5V)));;
  let info := ti_ads79xx_chip_info id in
  set_dev_channels info;;
  (* build spi ring message *)
  modify_st (set_ring_msg []);;
  modify_st (fun st =>
    set_ring_xfer {| Spi.tx_buf := Some TX_BUF;
                     Spi.rx_buf := Some RX_BUF;
                     (* len will be set later *)
                     Spi.len := Spi.len (ring_xfer st);
                     Spi.cs_change := true |} st);;
  modify_st (fun st => set_ring_msg (ring_msg st ++ [Spi.RING_XFER]) st);;
  (* Setup default message. *)
  modify_st (fun st =>
    set_scan_single_xfer
      (<[2%nat := single_xfer None (Some SINGLE_RX)]>
         (<[1%nat := single_xfer (Some SINGLE_TX) None]>
            (<[0%nat := single_xfer (Some SINGLE_TX) None]>
               (scan_single_xfer st)))) st);;
  modify_st (set_scan_single_msg
    [Spi.SCAN_SINGLE_XFER 0; Spi.SCAN_SINGLE_XFER 1; Spi.SCAN_SINGLE_XFER 2]);;
  kernel k_devm_regulator_get;;
  modify_st (set_reg (devm_regulator_get_ptr env));;
  st ← get_st;
  if IS_ERR (reg st) then
    let ret := to_int (PTR_ERR (reg st)) in
    (if decide (ret ≠ - EPROBE_DEFER) then kernel k_dev_err else mret tt);;
    mret ret
  else
  kernel k_regulator_enable;;
  let ret := regulator_enable_ret env in
  if decide (ret ≠ 0) then kernel k_dev_err;; mret ret
  else
  kernel k_iio_triggered_buffer_setup;;
  let ret := iio_triggered_buffer_setup_ret env in
  if decide (ret ≠ 0) then kernel k_dev_err;; error_disable_reg ret
  else
  kernel k_iio_device_register;;
  let ret := iio_device_register_ret env in
  if decide (ret ≠ 0) then kernel k_dev_err;; error_cleanup_ring ret
  else
  (* Hack to create continuous polling mode *)
  kernel k_iio_sw_trigger_create;;
  modify_st (set_hrtimer_trigger (iio_sw_trigger_create_ptr env));;
  st ← get_st;
  if IS_ERR (hrtimer_trigger st) then
    let ret := to_int (PTR_ERR (hrtimer_trigger st)) in
    error_unregister_iio_device ret
  else
  kernel k_iio_trigger_set_immutable;;
  mret 0.

Definition ti_ads79xx_remove : drv Z :=
  kernel k_iio_device_unregister;;
  kernel k_iio_sw_trigger_destroy;;
  kernel k_iio_triggered_buffer_cleanup;;
  kernel k_regulator_disable;;
  mret 0.

End Driver.

(** The machine before probe: no kernel call made yet, the private state as
    [devm_iio_device_alloc] will hand it out (zeroed). *)
Definition zero_state : ti_ads79xx_state := {|
  ring_xfer := Spi.zero_transfer;
  scan_single_xfer := replicate 3 Spi.zero_transfer;
  ring_msg := [];
  scan_single_msg := [];
  single_tx := 0;
  single_rx := 0;
  reg := 0;
  hrtimer_trigger := 0;
  settings := 0;
  rx_buf := replicate (Z.to_nat RX_BUF_SIZE) 0;
  tx_buf := replicate (Z.to_nat TX_BUF_SIZE) 0;
|}.

Definition boot : machine := {|
  indio_dev := {| dev_channels := []; dev_num_channels := 0; priv := zero_state |};
  klog := [];
|}.

(** A kernel in which every call of probe succeeds. *)
Definition probe_ok_env : probe_env := {|
  spi_setup_ret := 0;
  devm_iio_device_alloc_ok := true;
  devm_regulator_get_ptr := 4096;
  regulator_enable_ret := 0;
  iio_triggered_buffer_setup_ret := 0;
  iio_device_register_ret := 0;
  iio_sw_trigger_create_ptr := 8192;
|}.

(** ** Operations as steps

    What can run on a probed device: each operation with the answers of
    the kernel it consumes. *)
Inductive op :=
| op_update_scan_mode (active_scan_mask : Z)
| op_trigger_handler (reply : Spi.reply) (now : Z)
| op_scan_direct (ch : Z) (reply : Spi.reply)
| op_get_range (voltage : Z)
| op_read_raw (chan : iio_chan_spec) (val val2 m : Z) (reply : Spi.reply) (voltage : Z).

Definition run_op {abi : linux_abi} (o : op) : drv unit :=
  match o with
  | op_update_scan_mode mask => ti_ads79xx_update_scan_mode mask;; mret tt
  | op_trigger_handler reply now => ti_ads79xx_trigger_handler reply now;; mret tt
  | op_scan_direct ch reply => ti_ads79xx_scan_direct ch reply;; mret tt
  | op_get_range voltage => ti_ads79xx_get_range voltage;; mret tt
  | op_read_raw chan val val2 m reply voltage =>
      ti_ads79xx_read_raw chan val val2 m reply voltage;; mret tt
  end.

(** The machines a device of variant [id] goes through: after a successful
    probe, and after any operation that ran on one of them. *)
Inductive reachable {abi : linux_abi} (id : ti_ads79xx_id) : machine -> Prop :=
| reachable_probe env m :
    ti_ads79xx_probe id env boot = Some (0, m) ->
    reachable id m
| reachable_step m o m' :
    reachable id m ->
    run_op o m = Some (tt, m') ->
    reachable id m'.

(** ** Specification-level notions *)

(** Number of set bits of a bitmap. *)
Fixpoint popcount_pos (p : positive) : Z :=
  match p with
  | xH => 1
  | xO p' => popcount_pos p'
  | xI p' => 1 + popcount_pos p'
  end.

Definition popcount (mask : Z) : Z :=
  match mask with
  | Zpos p => popcount_pos p
  | _ => 0
  end.

(** The 16-bit word the driver puts on the wire to select channel [c] under
    the settings word [s]. *)
Definition encode (c s : Z) : Z := to_u16 (ads79xx_cmd c s).

(** The control word as the specification writes it:
    [MANUAL_BIT | WRITE_BIT | (channel << 7) | settings]. *)
Definition spec_encode (c s : Z) : Z :=
  Z.lor (Z.lor (Z.lor ADS79XX_CR_MANUAL ADS79XX_CR_WRITE) (Z.shiftl c 7)) s.

(** [chans] lists the set bits of [mask], lowest first. *)
Definition set_bits_ascending (mask : Z) (chans : list Z) : Prop :=
  StronglySorted Z.lt chans /\
  forall c, c ∈ chans <-> 0 <= c /\ Z.testbit mask c = true.

(** A scan mask of variant [id]: a set of its voltage channels. *)
Definition scan_mask (id : ti_ads79xx_id) (mask : Z) : Prop :=
  0 <= mask < 2 ^ num_voltage_channels id.

(** The spec's statement about the command encoding of channel [c] under
    settings [s]: bit 12 set, bit 11 set, bits 10..7 = c, and
    bit 6 = (s >> 6) & 1. *)
Definition encode_claim (c s : Z) : Prop :=
  Z.testbit (encode c s) 12 = true /\
  Z.testbit (encode c s) 11 = true /\
  EXTRACT (encode c s) 7 4 = c /\
  EXTRACT (encode c s) 6 1 = Z.land (Z.shiftr s 6) 1.

(** ** Well-formed machines

    The shape probe gives the private state and every operation keeps:
    buffer sizes, the two prepared messages and the transfers they link. *)
Record wf (m : machine) : Prop := {
  wf_tx_buf : length (tx_buf (priv (indio_dev m))) = Z.to_nat TX_BUF_SIZE;
  wf_rx_buf : length (rx_buf (priv (indio_dev m))) = Z.to_nat RX_BUF_SIZE;
  wf_ring_msg : ring_msg (priv (indio_dev m)) = [Spi.RING_XFER];
  wf_ring_tx : Spi.tx_buf (ring_xfer (priv (indio_dev m))) = Some TX_BUF;
  wf_ring_rx : Spi.rx_buf (ring_xfer (priv (indio_dev m))) = Some RX_BUF;
  wf_ring_len : 0 <= Spi.len (ring_xfer (priv (indio_dev m))) <= 2 * TX_BUF_SIZE;
  wf_single_msg :
    scan_single_msg (priv (indio_dev m)) =
      [Spi.SCAN_SINGLE_XFER 0; Spi.SCAN_SINGLE_XFER 1; Spi.SCAN_SINGLE_XFER 2];
  wf_single_xfer :
    scan_single_xfer (priv (indio_dev m)) =
      [single_xfer (Some SINGLE_TX) None;
       single_xfer (Some SINGLE_TX) None;
       single_xfer None (Some SINGLE_RX)];
}.

(** The device was set up for variant [id]. *)
Definition probed_as (id : ti_ads79xx_id) (m : machine) : Prop :=
  dev_channels (indio_dev m) = channels (ti_ads79xx_chip_info id) /\
  dev_num_channels (indio_dev m) = num_channels (ti_ads79xx_chip_info id).

(** The set bits of [mask] among [n] positions from [bit], lowest first:
    the positions at which [for_each_set_bit_from] runs its body. *)
Fixpoint set_bits_from (mask bit : Z) (n : nat) : list Z :=
  match n with
  | O => []
  | S n' =>
      (if Z.testbit mask bit then [bit] else []) ++ set_bits_from mask (bit + 1) n'
  end.

(** The TX buffer after storing the command words of [cs] from index
    [len] on. *)
Fixpoint store_cmds (s : Z) (len : nat) (cs : list Z) (tx : list Z) : list Z :=
  match cs with
  | [] => tx
  | c :: cs' => store_cmds s (S len) cs' (<[len := encode c s]> tx)
  end.

(** Number of [k_iio_trigger_notify_done] calls, and the pushes, in a log. *)
Definition notify_done_count (log : list kcall) : nat :=
  length (List.filter (fun c => match c with k_iio_trigger_notify_done => true
                                        | _ => false end) log).

Definition pushes (log : list kcall) : list kcall :=
  List.filter (fun c => match c with
                        | k_iio_push_to_buffers_with_timestamp _ _ _ => true
                        | _ => false end) log.

(** [c] keeps [P]: from a machine with [P], whatever [c] returns, the
    machine it leaves has [P]. *)
Definition preserves (P : machine -> Prop) {A} (c : drv A) : Prop :=
  forall m a m', P m -> c m = Some (a, m') -> P m'.

(** The invariant of a probed device of variant [id]: shape, tables, and
    the settings word fixed to MANUAL | RANGE_5V. *)
Definition driver_inv (id : ti_ads79xx_id) (m : machine) : Prop :=
  wf m /\ probed_as id m /\
  settings (priv (indio_dev m)) = Z.lor ADS79XX_CR_MANUAL ADS79XX_CR_RANGE_5V.

(** The errno values are positive and [ERR_PTR] values fit an [int]. *)
Definition errno_ok (abi : linux_abi) : Prop :=
  0 < ENOMEM /\ 0 <= MAX_ERRNO < 2 ^ 31.

(** The machine a successful probe of variant [id] leaves, under the Linux
    4.x constants. *)
Definition probed (id : ti_ads79xx_id) : machine :=
  match ti_ads79xx_probe (abi := linux_4) id probe_ok_env boot with
  | Some (_, m) => m
  | None => boot
  end.

(** A bus that answers with the words [ws], then zeros. *)
Definition bus (ret : Z) (ws : list Z) : Spi.reply :=
  {| Spi.ret := ret; Spi.miso := fun i => nth i ws 0 |}.

(** ** Resources of probe and remove

    What a kernel call acquires when it succeeds, and what a call gives
    back; read over the log of a probe they tell what is held. *)

Inductive resource :=
| R_REGULATOR
| R_TRIGGERED_BUFFER
| R_IIO_DEVICE
| R_SW_TRIGGER.

Section Lifecycle.

Context {abi : linux_abi}.

(** The resource the call [c] of a probe acquired, given the kernel's
    answers [env]: none when the call failed. *)
Definition acquires (env : probe_env) (c : kcall) : option resource :=
  match c with
  | k_regulator_enable =>
      if decide (regulator_enable_ret env = 0) then Some R_REGULATOR else None
  | k_iio_triggered_buffer_setup =>
      if decide (iio_triggered_buffer_setup_ret env = 0)
      then Some R_TRIGGERED_BUFFER else None
  | k_iio_device_register =>
      if decide (iio_device_register_ret env = 0) then Some R_IIO_DEVICE else None
  | k_iio_sw_trigger_create =>
      if IS_ERR (iio_sw_trigger_create_ptr env) then None else Some R_SW_TRIGGER
  | _ => None
  end.

Definition acquired (env : probe_env) (log : list kcall) : list resource :=
  omap (acquires env) log.

End Lifecycle.

Definition releases (c : kcall) : option resource :=
  match c with
  | k_regulator_disable => Some R_REGULATOR
  | k_iio_triggered_buffer_cleanup => Some R_TRIGGERED_BUFFER
  | k_iio_device_unregister => Some R_IIO_DEVICE
  | k_iio_sw_trigger_destroy => Some R_SW_TRIGGER
  | _ => None
  end.

Definition released (log : list kcall) : list resource := omap releases log.

Definition count_call (p : kcall -> bool) (log : list kcall) : nat :=
  length (List.filter p log).

Definition is_dev_err (c : kcall) : bool :=
  match c with k_dev_err => true | _ => false end.

Definition is_device_register (c : kcall) : bool :=
  match c with k_iio_device_register => true | _ => false end.

Definition is_regulator_enable (c : kcall) : bool :=
  match c with k_regulator_enable => true | _ => false end.

(** The response word of the ADC: channel tag in bits 15..12, conversion
    code in bits 11..0. *)
Definition response_word (tag code : Z) : Z := Z.lor (Z.shiftl tag 12) code.

(** ** The ports driver (evb/evb_ports_core.c) *)

Module Evb.

Inductive kcall :=
| k_of_platform_populate
| k_of_platform_depopulate
| k_dev_err.

(** [evb_ports_probe]; [populate_ret] is what [of_platform_populate]
    returns, the log is the calls made so far. *)
Definition evb_ports_probe (populate_ret : Z) (log : list kcall) : Z * list kcall :=
  let log := log ++ [k_of_platform_populate] in
  let err := populate_ret in
  if decide (err < 0)
  then (to_int (- err), log ++ [k_dev_err])
  else (0, log).

Definition evb_ports_remove (log : list kcall) : Z * list kcall :=
  (0, log ++ [k_of_platform_depopulate]).

End Evb.

(** The kernel's two errno values for "operation not supported"
    (uapi/asm-generic/errno.h: EOPNOTSUPP; linux/errno.h: ENOTSUPP).  The
    driver names neither. *)
Definition EOPNOTSUPP : Z := 95.
Definition ENOTSUPP : Z := 524.

(** The settings word of a probed device, [ADS79XX_CR_MANUAL |
    ADS79XX_CR_RANGE_5V]. *)
Definition probed_settings : Z := Z.lor ADS79XX_CR_MANUAL ADS79XX_CR_RANGE_5V.

(** * Properties *)

Example popcount_0x92 : popcount 0x92 = 3.
Proof. reflexivity. Qed.

Example scan_setup_1_4_7 :
  let m := {| indio_dev := {| dev_channels := ti_ads7951_channels;
                              dev_num_channels := 9;
                              priv := set_settings 0x1040 zero_state |};
              klog := [] |} in
  match ti_ads79xx_update_scan_mode 0x92 m with
  | Some (r, m') =>
      r = 0 /\
      take 5 (tx_buf (priv (indio_dev m'))) =
        [encode 1 0x1040; encode 4 0x1040; encode 7 0x1040; 0; 0] /\
      Spi.len (ring_xfer (priv (indio_dev m'))) = 10
  | None => False
  end.
Proof. vm_compute. repeat split; reflexivity. Qed.

(** ** Bits of extracted fields and of command words *)

Lemma EXTRACT_testbit (v dec bits n : Z) :
  0 <= dec -> 0 <= bits -> 0 <= n ->
  Z.testbit (EXTRACT v dec bits) n = (n <? bits) && Z.testbit v (n + dec).
Proof.
  intros Hd Hb Hn. unfold EXTRACT.
  rewrite Z.shiftl_1_l, Z.sub_1_r, <- Z.ones_equiv, Z.land_spec, Z.shiftr_spec by lia.
  destruct (Z.ltb_spec n bits).
  - rewrite Z.ones_spec_low by lia. apply andb_true_r.
  - rewrite Z.ones_spec_high by lia. apply andb_false_r.
Qed.

Lemma EXTRACT_range (v dec bits : Z) :
  0 <= dec -> 0 <= bits -> 0 <= EXTRACT v dec bits < 2 ^ bits.
Proof.
  intros Hd Hb. unfold EXTRACT.
  rewrite Z.shiftl_1_l, Z.sub_1_r, <- Z.ones_equiv, Z.land_ones by lia.
  apply Z.mod_pos_bound. lia.
Qed.

Lemma encode_testbit (c s n : Z) :
  0 <= n < 16 ->
  Z.testbit (encode c s) n =
    (n =? 11) || ((7 <=? n) && Z.testbit c (n - 7)) || Z.testbit s n.
Proof.
  intros Hn. unfold encode, ads79xx_cmd, to_u16, to_u32.
  rewrite !Z.mod_pow2_bits_low, !Z.lor_spec by lia.
  rewrite Z.mod_pow2_bits_low by lia.
  unfold ADS79XX_CR_WRITE, ADS79XX_CR_CHAN.
  rewrite Z.shiftl_1_l, Z.pow2_bits_eqb by lia.
  f_equal. f_equal.
  - apply Z.eqb_sym.
  - destruct (Z.leb_spec 7 n).
    + rewrite Z.shiftl_spec by lia. reflexivity.
    + rewrite Z.shiftl_spec_low by lia. reflexivity.
Qed.

Lemma testbit_above (c k n : Z) :
  0 <= c < 2 ^ k -> k <= n -> Z.testbit c n = false.
Proof.
  intros Hc Hn.
  destruct (Z.eq_dec c 0) as [->|Hne]; [apply Z.bits_0|].
  apply Z.bits_above_log2; [lia|].
  assert (Z.log2 c < k); [|lia].
  apply Z.log2_lt_pow2; lia.
Qed.

(** C3 (amended): for every channel c in 0..15 and every settings word s
    that has the MANUAL bit (bit 12) set and bits 10..7 clear, as the
    driver's settings word has, the command word of c under s has bit 12
    set, bit 11 (WRITE) set, bits 10..7 equal to c, and bit 6 equal to
    (s >> 6) & 1. *)
Theorem encode_bits (c s : Z) :
  0 <= c <= 15 ->
  Z.testbit s 12 = true ->
  EXTRACT s 7 4 = 0 ->
  encode_claim c s.
Proof.
  intros Hc Hman Hclr. unfold encode_claim.
  assert (Hs : forall n, 0 <= n < 4 -> Z.testbit s (n + 7) = false).
  { intros n Hn.
    pose proof (EXTRACT_testbit s 7 4 n) as E.
    rewrite Hclr, Z.bits_0 in E.
    destruct (Z.ltb_spec n 4); [|lia].
    symmetry. apply E; lia. }
  repeat split.
  - rewrite encode_testbit, Hman by lia. apply orb_true_r.
  - rewrite encode_testbit by lia. reflexivity.
  - apply Z.bits_inj'. intros n Hn.
    rewrite EXTRACT_testbit by lia.
    destruct (Z.ltb_spec n 4).
    + rewrite encode_testbit, Hs by lia.
      replace (n + 7 - 7) with n by lia.
      replace (n + 7 =? 11) with false by (symmetry; apply Z.eqb_neq; lia).
      replace (7 <=? n + 7) with true by (symmetry; apply Z.leb_le; lia).
      simpl. apply orb_false_r.
    + symmetry. apply testbit_above with (k := 4); lia.
  - apply Z.bits_inj'. intros n Hn.
    rewrite EXTRACT_testbit by lia.
    change 1 with (Z.ones 1) at 2.
    rewrite Z.land_spec, Z.shiftr_spec by lia.
    destruct (Z.ltb_spec n 1).
    + assert (n = 0) as -> by lia.
      rewrite encode_testbit by lia.
      change (Z.testbit (Z.ones 1) 0) with true.
      change (0 + 6) with 6. change (6 =? 11) with false.
      change (7 <=? 6) with false. cbn [orb andb].
      symmetry. apply andb_true_r.
    + rewrite Z.ones_spec_high by lia. symmetry. apply andb_false_r.
Qed.

Lemma encode_bits_witness : encode_claim 3 0x1040.
Proof. apply (encode_bits 3 0x1040); [lia | reflexivity | reflexivity]. Defined.

(** C3 as stated fails: under a settings word without the MANUAL bit the
    command word has bit 12 clear, and a settings bit in 10..7 shows up in
    the channel field. *)
Lemma encode_claim_counterexample :
  0 <= 3 <= 15 /\ ~ encode_claim 3 0 /\ ~ encode_claim 0 0x1080.
Proof.
  split; [lia|]. split; intros (H12 & H11 & Hch & H6); discriminate.
Qed.

(** With the MANUAL bit in the settings word, as probe puts it there, the
    driver's command word is the one the specification writes. *)
Lemma encode_spec_encode (c s : Z) :
  0 <= c <= 15 -> 0 <= s < 2 ^ 16 -> Z.testbit s 12 = true ->
  encode c s = spec_encode c s.
Proof.
  intros Hc Hs Hman. apply Z.bits_inj'. intros n Hn.
  unfold spec_encode, ADS79XX_CR_MANUAL.
  rewrite !Z.lor_spec, Z.shiftl_1_l, Z.pow2_bits_eqb by lia.
  destruct (Z.lt_ge_cases n 16) as [Hlt | Hge].
  - rewrite encode_testbit by lia.
    unfold ADS79XX_CR_WRITE. rewrite Z.shiftl_1_l, Z.pow2_bits_eqb by lia.
    rewrite (Z.eqb_sym 11 n).
    destruct (Z.eqb_spec 12 n) as [<- | _].
    + rewrite Hman, !orb_true_r. reflexivity.
    + cbn [orb]. do 2 f_equal.
      destruct (Z.leb_spec 7 n).
      * rewrite Z.shiftl_spec by lia. reflexivity.
      * rewrite Z.shiftl_spec_low by lia. reflexivity.
  - unfold encode, to_u16. rewrite Z.mod_pow2_bits_high by lia.
    unfold ADS79XX_CR_WRITE. rewrite Z.shiftl_1_l, Z.pow2_bits_eqb by lia.
    rewrite Z.shiftl_spec by lia.
    rewrite (testbit_above c 4 (n - 7)), (testbit_above s 16 n) by lia.
    replace (12 =? n) with false by (symmetry; apply Z.eqb_neq; lia).
    replace (11 =? n) with false by (symmetry; apply Z.eqb_neq; lia).
    reflexivity.
Qed.

(** ** Channel tables *)

(** C7: for every chip variant and every voltage channel of its table, the
    shift equals 12 minus the variant's resolution: 0 for the 12-bit parts,
    2 for the 10-bit parts, 4 for the 8-bit parts. *)
Theorem channel_shift (id : ti_ads79xx_id) (chan : iio_chan_spec) :
  chan ∈ channels (ti_ads79xx_chip_info id) ->
  type chan = IIO_VOLTAGE ->
  realbits (scan_type chan) = variant_bits id /\
  shift (scan_type chan) = 12 - variant_bits id /\
  (variant_bits id = 12 /\ shift (scan_type chan) = 0 \/
   variant_bits id = 10 /\ shift (scan_type chan) = 2 \/
   variant_bits id = 8 /\ shift (scan_type chan) = 4).
Proof.
  intros Hin Hty.
  destruct id; cbn in Hin;
    repeat (apply elem_of_cons in Hin as [-> | Hin]; [cbn; auto 6 | ]);
    try (apply elem_of_nil in Hin; contradiction);
    try discriminate Hty.
Qed.

(** Every voltage channel of a table: resolution, shift and address. *)
Lemma channel_bits (id : ti_ads79xx_id) (chan : iio_chan_spec) :
  chan ∈ channels (ti_ads79xx_chip_info id) ->
  type chan = IIO_VOLTAGE ->
  realbits (scan_type chan) = variant_bits id /\
  shift (scan_type chan) = 12 - variant_bits id /\
  0 <= address chan < ADS79XX_MAX_CHAN.
Proof.
  intros Hin Hty.
  destruct id; cbn in Hin;
    repeat (apply elem_of_cons in Hin as [-> | Hin];
            [cbn; unfold ADS79XX_MAX_CHAN; try solve [repeat split; lia] | ]);
    try (apply elem_of_nil in Hin; contradiction);
    try discriminate Hty.
Qed.

(** ** Running driver code *)

Lemma bind_run {A B} (c : drv A) (f : A -> drv B) (m : machine) :
  (c ≫= f) m = match c m with Some (a, m') => f a m' | None => None end.
Proof. reflexivity. Qed.

Lemma bind_Some {A B} (c : drv A) (f : A -> drv B) (m : machine) b m' :
  (c ≫= f) m = Some (b, m') ->
  exists a m1, c m = Some (a, m1) /\ f a m1 = Some (b, m').
Proof.
  rewrite bind_run. destruct (c m) as [[a m1]|]; [|discriminate].
  intros H. exists a, m1. split; [reflexivity | exact H].
Qed.

Lemma to_u16_to_int (x : Z) : to_u16 (to_int x) = to_u16 x.
Proof.
  unfold to_u16, to_int.
  rewrite (Z.mod_eq (x + 2 ^ 31) (2 ^ 32)) by lia.
  replace (x + 2 ^ 31 - 2 ^ 32 * ((x + 2 ^ 31) / 2 ^ 32) - 2 ^ 31)
    with (x + (- (2 ^ 16 * ((x + 2 ^ 31) / 2 ^ 32))) * 2 ^ 16) by lia.
  apply Z.mod_add. lia.
Qed.

Lemma to_int_small (x : Z) : int_range x -> to_int x = x.
Proof.
  unfold int_range, INT_MIN, INT_MAX, to_int. intros H.
  rewrite Z.mod_small; lia.
Qed.

Lemma to_u32_small (x : Z) : 0 <= x < 2 ^ 32 -> to_u32 x = x.
Proof. apply Z.mod_small. Qed.

Lemma tx_buf_store_run (i v : Z) (m : machine) :
  0 <= i < TX_BUF_SIZE ->
  tx_buf_store i v m =
    Some (tt, with_st (fun st => set_tx_buf (<[Z.to_nat i := to_u16 v]> (tx_buf st)) st) m).
Proof.
  intros Hi. unfold tx_buf_store, array_store.
  rewrite bind_run. cbn [get_st].
  destruct (decide (0 <= i < TX_BUF_SIZE)); [reflexivity | contradiction].
Qed.

Lemma store_cmds_eq s cs : forall (len : nat) tx,
  (len + length cs <= length tx)%nat ->
  store_cmds s len cs tx =
    take len tx ++ map (fun c => encode c s) cs ++ drop (len + length cs) tx.
Proof.
  induction cs as [|c cs IH]; intros len tx Hlen; cbn [store_cmds map length].
  - rewrite Nat.add_0_r. cbn. symmetry. apply take_drop.
  - cbn [length] in Hlen.
    rewrite IH by (rewrite length_insert; lia).
    rewrite drop_insert_lt by lia.
    rewrite (take_S_r _ _ (encode c s)) by (apply list_lookup_insert_eq; lia).
    rewrite take_insert_ge by lia.
    rewrite <- app_assoc. cbn [app].
    replace (S len + length cs)%nat with (len + S (length cs))%nat by lia.
    reflexivity.
Qed.

Lemma scan_loop_run (mask : Z) : forall (n : nat) (bit len : Z) (m : machine),
  0 <= len ->
  len + Z.of_nat (length (set_bits_from mask bit n)) <= TX_BUF_SIZE ->
  for_each_set_bit_from mask bit n
    (fun i len =>
       st ← get_st;
       let cmd := to_int (ads79xx_cmd i (settings st)) in
       tx_buf_store len cmd;;
       mret (len + 1)) len m =
  Some (len + Z.of_nat (length (set_bits_from mask bit n)),
        with_st (fun st =>
          set_tx_buf (store_cmds (settings st) (Z.to_nat len)
                        (set_bits_from mask bit n) (tx_buf st)) st) m).
Proof.
  induction n as [|n IH]; intros bit len m Hlen Hfit; cbn [for_each_set_bit_from set_bits_from].
  - cbn. rewrite Z.add_0_r. destruct m as [[? ? []] ?]; reflexivity.
  - cbn [set_bits_from] in Hfit. rewrite bind_run.
    destruct (Z.testbit mask bit).
    + cbn [app length] in Hfit |- *.
      rewrite bind_run. cbn [get_st]. cbv zeta. rewrite bind_run.
      rewrite tx_buf_store_run by lia.
      cbn [mret drv_ret].
      rewrite IH by lia.
      f_equal. f_equal; [lia|].
      unfold with_st. cbn.
      replace (Z.to_nat (len + 1)) with (S (Z.to_nat len)) by lia.
      rewrite to_u16_to_int. reflexivity.
    + cbn [app mret drv_ret]. apply IH; assumption.
Qed.

(** ** Set bits and their count *)

Lemma set_bits_from_elem (mask : Z) : forall (n : nat) (bit c : Z),
  c ∈ set_bits_from mask bit n <->
  bit <= c < bit + Z.of_nat n /\ Z.testbit mask c = true.
Proof.
  induction n as [|n IH]; intros bit c; cbn [set_bits_from].
  - rewrite elem_of_nil. lia.
  - rewrite elem_of_app, IH.
    destruct (Z.testbit mask bit) eqn:Hb.
    + rewrite list_elem_of_singleton. split.
      * intros [-> | [? ?]]; split; auto; lia.
      * intros [? ?]. destruct (Z.eq_dec c bit); [left; assumption | right; split; [lia | assumption]].
    + rewrite elem_of_nil. split.
      * intros [[] | [? ?]]; split; auto; lia.
      * intros [? Hc]. right. split; [|assumption].
        destruct (Z.eq_dec c bit) as [-> | ?]; [congruence | lia].
Qed.

Lemma set_bits_from_sorted (mask : Z) : forall (n : nat) (bit : Z),
  StronglySorted Z.lt (set_bits_from mask bit n).
Proof.
  induction n as [|n IH]; intros bit; cbn [set_bits_from].
  - constructor.
  - destruct (Z.testbit mask bit); cbn [app]; [|apply IH].
    constructor; [apply IH|].
    apply Forall_forall. intros c Hc.
    apply set_bits_from_elem in Hc. lia.
Qed.

Lemma popcount_div2 (mask : Z) :
  0 <= mask -> popcount mask = Z.b2z (Z.odd mask) + popcount (Z.div2 mask).
Proof.
  destruct mask as [|p|p]; intros H; [reflexivity | | lia].
  destruct p; cbn; lia.
Qed.

Lemma set_bits_from_div2 (mask : Z) : forall (n : nat) (bit : Z),
  0 <= bit ->
  length (set_bits_from mask (bit + 1) n) = length (set_bits_from (Z.div2 mask) bit n).
Proof.
  induction n as [|n IH]; intros bit Hbit; cbn [set_bits_from]; [reflexivity|].
  rewrite !length_app, IH by lia.
  rewrite Z.div2_spec, Z.shiftr_spec by lia.
  destruct (Z.testbit mask (bit + 1)); reflexivity.
Qed.

Lemma set_bits_from_popcount : forall (n : nat) (mask : Z),
  0 <= mask < 2 ^ Z.of_nat n ->
  Z.of_nat (length (set_bits_from mask 0 n)) = popcount mask.
Proof.
  induction n as [|n IH]; intros mask Hmask.
  - assert (mask = 0) as -> by (cbn in Hmask; lia). reflexivity.
  - cbn [set_bits_from]. rewrite length_app, Nat2Z.inj_add.
    assert (0 <= Z.div2 mask < 2 ^ Z.of_nat n) as Hhalf.
    { rewrite Z.div2_div. rewrite Nat2Z.inj_succ, Z.pow_succ_r in Hmask by lia.
      split; [apply Z.div_pos; lia | apply Z.div_lt_upper_bound; lia]. }
    rewrite set_bits_from_div2 by lia.
    rewrite (IH _ Hhalf), (popcount_div2 mask) by lia.
    rewrite Z.bit0_odd. destruct (Z.odd mask); reflexivity.
Qed.

Lemma popcount_bound (n : Z) (mask : Z) :
  0 <= n -> 0 <= mask < 2 ^ n -> 0 <= popcount mask <= n.
Proof.
  intros Hn Hmask.
  rewrite <- (Z2Nat.id n) in Hmask by lia.
  rewrite <- (set_bits_from_popcount _ _ Hmask).
  split; [lia|].
  assert (forall k b, (length (set_bits_from mask b k) <= k)%nat) as Hle.
  { induction k as [|k IHk]; intros b; cbn [set_bits_from]; [cbn; lia|].
    rewrite length_app. specialize (IHk (b + 1)).
    destruct (Z.testbit mask b); cbn [length]; lia. }
  specialize (Hle (Z.to_nat n) 0). lia.
Qed.

Lemma set_bits_from_all (mask : Z) (n : nat) :
  0 <= mask < 2 ^ Z.of_nat n ->
  set_bits_ascending mask (set_bits_from mask 0 n).
Proof.
  intros Hmask. split; [apply set_bits_from_sorted|].
  intros c. rewrite set_bits_from_elem. split.
  - intros [? ?]. split; [lia | assumption].
  - intros [Hc Hb]. split; [|assumption]. split; [lia|].
    destruct (Z.lt_ge_cases c (Z.of_nat n)) as [?|Hge]; [lia|].
    rewrite (testbit_above mask (Z.of_nat n) c) in Hb by lia. discriminate.
Qed.

(** ** Scan-mode set-up *)

Lemma pad_after_cmds (cmds tx : list Z) :
  (length cmds + 2 <= length tx)%nat ->
  <[S (length cmds) := 0]>
    (<[length cmds := 0]> (cmds ++ drop (length cmds) tx)) =
  cmds ++ 0 :: 0 :: drop (length cmds + 2) tx.
Proof.
  intros Hlen.
  destruct (lookup_lt_is_Some_2 tx (length cmds)) as [r0 Hr0]; [lia|].
  destruct (lookup_lt_is_Some_2 tx (S (length cmds))) as [r1 Hr1]; [lia|].
  rewrite (drop_S _ _ _ Hr0), (drop_S _ _ _ Hr1).
  rewrite !insert_app_r_alt by lia.
  replace (length cmds - length cmds)%nat with 0%nat by lia.
  replace (S (length cmds) - length cmds)%nat with 1%nat by lia.
  replace (length cmds + 2)%nat with (S (S (length cmds))) by lia.
  reflexivity.
Qed.

(** The machine [ti_ads79xx_update_scan_mode] leaves, when the command
    words and the padding fit the TX buffer. *)
Lemma update_scan_mode_run (mask : Z) (m : machine) :
  let bits := set_bits_from mask 0 (Z.to_nat (dev_num_channels (indio_dev m))) in
  let cnt := Z.of_nat (length bits) in
  length (tx_buf (priv (indio_dev m))) = Z.to_nat TX_BUF_SIZE ->
  cnt + 2 <= TX_BUF_SIZE ->
  ti_ads79xx_update_scan_mode mask m =
    Some (0, with_st (fun st =>
               set_ring_xfer_len ((cnt + 2) * 2)
                 (set_tx_buf
                    (map (fun c => encode c (settings st)) bits
                       ++ 0 :: 0 :: drop (length bits + 2) (tx_buf st)) st)) m).
Proof.
  intros bits cnt Htx Hfit.
  pose (s := settings (priv (indio_dev m))).
  pose (tx := tx_buf (priv (indio_dev m))).
  assert (<[Z.to_nat (cnt + 1) := 0]>
            (<[Z.to_nat cnt := 0]> (store_cmds s 0 bits tx)) =
          map (fun c => encode c s) bits ++ 0 :: 0 :: drop (length bits + 2) tx)
    as Hpad.
  { rewrite store_cmds_eq by (unfold tx; cbn [Nat.add]; lia).
    rewrite take_0. cbn [app Nat.add].
    rewrite <- (length_map (fun c => encode c s) bits).
    replace (Z.to_nat cnt) with (length (map (fun c => encode c s) bits))
      by (rewrite length_map; unfold cnt; lia).
    replace (Z.to_nat (cnt + 1)) with (S (length (map (fun c => encode c s) bits)))
      by (rewrite length_map; unfold cnt; lia).
    apply pad_after_cmds. rewrite length_map. unfold tx. lia. }
  unfold ti_ads79xx_update_scan_mode, for_each_set_bit.
  rewrite bind_run. cbn [get_dev]. rewrite bind_run.
  fold bits. rewrite scan_loop_run by (fold bits; fold cnt; lia).
  fold bits. fold cnt. rewrite Z.add_0_l.
  rewrite bind_run, tx_buf_store_run by lia.
  rewrite bind_run, tx_buf_store_run by lia.
  cbv zeta. rewrite bind_run.
  unfold modify_st. rewrite bind_run. cbn [get_st put_st mret drv_ret].
  unfold with_st, set_ring_xfer_len, set_ring_xfer, set_tx_buf.
  cbn [indio_dev priv klog dev_channels dev_num_channels tx_buf settings
       ring_xfer scan_single_xfer ring_msg scan_single_msg single_tx single_rx
       reg hrtimer_trigger rx_buf].
  change (to_u16 0) with 0. change (Z.to_nat 0) with 0%nat.
  fold s. fold tx. rewrite Hpad.
  rewrite to_u32_small by (unfold TX_BUF_SIZE, ADS79XX_MAX_CHAN in Hfit; lia).
  reflexivity.
Qed.

Lemma variant_num_channels (id : ti_ads79xx_id) :
  num_channels (ti_ads79xx_chip_info id) = num_voltage_channels id + 1 /\
  0 <= num_voltage_channels id <= ADS79XX_MAX_CHAN.
Proof. destruct id; vm_compute; intuition discriminate. Qed.

(** What [ti_ads79xx_update_scan_mode] does on a scan mask of the probed
    variant: the set bits it visits are all the set bits, [popcount] many,
    and they fit the TX buffer. *)
Lemma scan_mask_bits (id : ti_ads79xx_id) (mask : Z) (m : machine) :
  probed_as id m -> scan_mask id mask ->
  let bits := set_bits_from mask 0 (Z.to_nat (dev_num_channels (indio_dev m))) in
  set_bits_ascending mask bits /\
  Z.of_nat (length bits) = popcount mask /\
  0 <= popcount mask /\
  popcount mask + 2 <= TX_BUF_SIZE.
Proof.
  intros [_ Hnum] Hmask bits. unfold scan_mask in Hmask.
  destruct (variant_num_channels id) as [Hn Hv].
  assert (0 <= mask < 2 ^ Z.of_nat (Z.to_nat (dev_num_channels (indio_dev m)))) as Hlt.
  { rewrite Hnum, Hn, Z2Nat.id by lia.
    rewrite Z.pow_add_r by lia. lia. }
  pose proof (popcount_bound _ _ (proj1 Hv) Hmask) as Hpc.
  split; [apply set_bits_from_all; assumption|].
  split; [apply set_bits_from_popcount; assumption|].
  unfold TX_BUF_SIZE. lia.
Qed.

(** Two ascending lists of the set bits of one mask are the same list. *)
Lemma set_bits_ascending_unique (mask : Z) (l1 l2 : list Z) :
  set_bits_ascending mask l1 -> set_bits_ascending mask l2 -> l1 = l2.
Proof.
  intros [Hs1 Hm1] [Hs2 Hm2].
  assert (forall c, c ∈ l1 <-> c ∈ l2) as Hsame
    by (intros c; rewrite Hm1, Hm2; reflexivity).
  clear Hm1 Hm2. revert l2 Hs2 Hsame.
  induction Hs1 as [|a l1 Hs1 IH Ha]; intros l2 Hs2 Hsame.
  - destruct l2 as [|b l2]; [reflexivity|].
    exfalso. apply (elem_of_nil b). apply Hsame. apply list_elem_of_here.
  - destruct Hs2 as [|b l2 Hs2 Hb].
    { exfalso. apply (elem_of_nil a). apply Hsame. apply list_elem_of_here. }
    rewrite Forall_forall in Ha, Hb.
    assert (a = b) as <-.
    { pose proof (proj1 (Hsame a) (list_elem_of_here a l1)) as Hab.
      pose proof (proj2 (Hsame b) (list_elem_of_here b l2)) as Hba.
      apply elem_of_cons in Hab as [Hab | Hab]; [exact Hab|].
      apply elem_of_cons in Hba as [Hba | Hba]; [symmetry; exact Hba|].
      specialize (Hb a Hab). specialize (Ha b Hba). lia. }
    f_equal. apply IH; [exact Hs2|].
    intros c. split; intros Hc.
    + pose proof (proj1 (Hsame c) (list_elem_of_further c a l1 Hc)) as Hc2.
      apply elem_of_cons in Hc2 as [-> | Hc2]; [|exact Hc2].
      specialize (Ha a Hc). lia.
    + pose proof (proj2 (Hsame c) (list_elem_of_further c a l2 Hc)) as Hc1.
      apply elem_of_cons in Hc1 as [-> | Hc1]; [|exact Hc1].
      specialize (Hb a Hc). lia.
Qed.

(** The set bits of a scan mask are channels 0..15. *)
Lemma scan_mask_channel (id : ti_ads79xx_id) (mask c : Z) :
  scan_mask id mask -> 0 <= c -> Z.testbit mask c = true -> 0 <= c <= 15.
Proof.
  intros Hmask Hc Hbit. unfold scan_mask in Hmask.
  destruct (variant_num_channels id) as [_ Hn]. unfold ADS79XX_MAX_CHAN in Hn.
  destruct (Z.lt_ge_cases c 16) as [?|Hge]; [lia|].
  assert (2 ^ num_voltage_channels id <= 2 ^ 16)
    by (apply Z.pow_le_mono_r; lia).
  rewrite (testbit_above mask 16 c) in Hbit by lia. discriminate.
Qed.

Lemma probed_settings_manual :
  0 <= probed_settings < 2 ^ 16 /\ Z.testbit probed_settings 12 = true.
Proof. vm_compute. repeat split; discriminate. Qed.

(** On a probed device the command words the driver writes for the set
    bits of a scan mask are the words the specification writes,
    [MANUAL | WRITE | (c << 7) | settings]. *)
Lemma scan_cmds_spec_encode (id : ti_ads79xx_id) (mask : Z) (chans : list Z) :
  scan_mask id mask -> set_bits_ascending mask chans ->
  map (fun c => encode c probed_settings) chans =
  map (fun c => spec_encode c probed_settings) chans.
Proof.
  intros Hmask [_ Hmem].
  destruct probed_settings_manual as [Hrange Hman].
  apply map_ext_in. intros c Hc.
  apply list_elem_of_In, Hmem in Hc as [Hc Hbit].
  apply encode_spec_encode;
    [exact (scan_mask_channel id mask c Hmask Hc Hbit) | exact Hrange | exact Hman].
Qed.

(** C1: on a probed device (settings word MANUAL | RANGE_5V), for every
    scan mask over the device's channels and the list [chans] of its set
    bits in ascending order, after [ti_ads79xx_update_scan_mode] the TX
    buffer starts with [popcount mask + 2] words: for each channel of
    [chans], in that order, the command word
    [MANUAL | WRITE | (channel << 7) | settings], then two zero words; and
    the byte length recorded in the ring transfer is
    [(popcount mask + 2) * 2]. *)
Theorem update_scan_mode_tx (id : ti_ads79xx_id) (mask : Z) (chans : list Z)
    (m : machine) :
  driver_inv id m -> scan_mask id mask -> set_bits_ascending mask chans ->
  exists m' : machine,
    ti_ads79xx_update_scan_mode mask m = Some (0, m') /\
    Z.of_nat (length chans) = popcount mask /\
    take (Z.to_nat (popcount mask + 2)) (tx_buf (priv (indio_dev m'))) =
      map (fun c => spec_encode c probed_settings) chans ++ [0; 0] /\
    Spi.len (ring_xfer (priv (indio_dev m'))) = (popcount mask + 2) * 2.
Proof.
  intros (Hwf & Hid & Hs) Hmask Hchans.
  destruct (scan_mask_bits id mask m Hid Hmask) as (Hasc & Hcnt & Hpos & Hfit).
  assert (chans = set_bits_from mask 0 (Z.to_nat (dev_num_channels (indio_dev m))))
    as Heq by (eapply set_bits_ascending_unique; eassumption).
  rewrite <- Heq in Hasc, Hcnt.
  eexists. split.
  { apply update_scan_mode_run; [apply Hwf | rewrite <- Heq, Hcnt; exact Hfit]. }
  split; [exact Hcnt|].
  rewrite <- Heq, Hcnt. cbn. split; [|reflexivity].
  rewrite Hs. fold probed_settings.
  rewrite (scan_cmds_spec_encode id mask chans Hmask Hasc).
  set (cmds := map _ chans).
  assert (Z.to_nat (popcount mask + 2) = (length cmds + 2)%nat) as ->.
  { unfold cmds. rewrite length_map. lia. }
  change (cmds ++ 0 :: 0 :: ?r) with (cmds ++ [0; 0] ++ r).
  rewrite app_assoc, take_app_length'; [reflexivity|].
  rewrite length_app. reflexivity.
Qed.

(** The only return of [ti_ads79xx_update_scan_mode] is [return 0]. *)
Lemma update_scan_mode_ret (mask : Z) (m : machine) a m' :
  ti_ads79xx_update_scan_mode mask m = Some (a, m') -> a = 0.
Proof.
  unfold ti_ads79xx_update_scan_mode. rewrite bind_run. cbn [get_dev].
  intros Hrun.
  apply bind_Some in Hrun as (len & m1 & _ & Hrun).
  apply bind_Some in Hrun as (? & m2 & _ & Hrun).
  apply bind_Some in Hrun as (? & m3 & _ & Hrun).
  cbv zeta in Hrun.
  apply bind_Some in Hrun as (? & m4 & _ & [= <- _]).
  reflexivity.
Qed.

(** C10: [ti_ads79xx_update_scan_mode] has no failing path: for every scan
    mask of the device it returns 0 (and 0 is all it ever returns); for the
    empty mask it still writes the two zero padding words and records a
    transfer length of 4 bytes. *)
Theorem update_scan_mode_returns_0 (id : ti_ads79xx_id) (mask : Z) (m : machine) :
  wf m -> probed_as id m -> scan_mask id mask ->
  (exists m', ti_ads79xx_update_scan_mode mask m = Some (0, m')) /\
  (forall mask' a m', ti_ads79xx_update_scan_mode mask' m = Some (a, m') -> a = 0) /\
  (exists m0,
     ti_ads79xx_update_scan_mode 0 m = Some (0, m0) /\
     tx_buf (priv (indio_dev m0)) = 0 :: 0 :: drop 2 (tx_buf (priv (indio_dev m))) /\
     Spi.len (ring_xfer (priv (indio_dev m0))) = 4).
Proof.
  intros Hwf Hid Hmask. split; [|split].
  - destruct (scan_mask_bits id mask m Hid Hmask) as (_ & Hcnt & _ & Hfit).
    eexists. apply update_scan_mode_run; [apply Hwf | rewrite Hcnt; exact Hfit].
  - intros mask' a m'. apply update_scan_mode_ret.
  - assert (forall n b, set_bits_from 0 b n = []) as Hnil.
    { induction n as [|n IH]; intros b; cbn [set_bits_from]; [reflexivity|].
      rewrite Z.bits_0, IH. reflexivity. }
    eexists. split.
    { apply update_scan_mode_run;
        [apply Hwf | rewrite Hnil; cbn; unfold TX_BUF_SIZE, ADS79XX_MAX_CHAN; lia]. }
    rewrite Hnil. cbn. split; reflexivity.
Qed.

(** ** SPI exchanges on a well-formed machine *)

Lemma spi_sync_fail (msg : Spi.message) (reply : Spi.reply) (m : machine) :
  Spi.ret reply ≠ 0 ->
  spi_sync msg reply m = Some (Spi.ret reply, log_call (k_spi_sync []) m).
Proof.
  intros Hret. unfold spi_sync. rewrite decide_False by assumption. reflexivity.
Qed.

(** The scan exchange: [len / 2] words go out of the TX buffer and as many
    come into the start of the RX buffer. *)
Lemma spi_sync_ring (reply : Spi.reply) (m : machine) :
  wf m -> Spi.ret reply = 0 ->
  let st := priv (indio_dev m) in
  let n := Z.to_nat (Spi.len (ring_xfer st) / 2) in
  spi_sync (ring_msg st) reply m =
    Some (0, log_call (k_spi_sync (take n (tx_buf st)))
               (with_st (set_rx_buf (map to_u16 (map (Spi.miso reply) (seq 0 n))
                                       ++ drop n (rx_buf st))) m)).
Proof.
  intros Hwf Hret st n. unfold spi_sync. rewrite decide_True by assumption.
  pose proof (wf_ring_len m Hwf) as Hlen. fold st in Hlen.
  assert (0 <= Spi.len (ring_xfer st) / 2 <= TX_BUF_SIZE) as Hn.
  { split; [apply Z.div_pos; lia | apply Z.div_le_upper_bound; lia]. }
  unfold st at 1. rewrite (wf_ring_msg m Hwf).
  cbn [spi_transfers]. rewrite !bind_run. cbn [get_st lookup_xfer].
  rewrite (wf_ring_tx m Hwf), (wf_ring_rx m Hwf).
  rewrite !bind_run. unfold load_words. rewrite bind_run. cbn [get_st].
  rewrite decide_True by (cbn [buf_size]; exact Hn).
  cbn [mret drv_ret]. rewrite bind_run.
  unfold store_words. rewrite bind_run. cbn [get_st].
  rewrite decide_True.
  2:{ rewrite length_map, length_seq. cbn [buf_size].
      unfold n, st, RX_BUF_SIZE, TX_BUF_SIZE in *. lia. }
  cbn [put_st]. rewrite bind_run. cbn [mret drv_ret].
  rewrite length_map, length_seq, app_nil_r.
  reflexivity.
Qed.

(** The single-shot exchange: three one-word transfers; the word clocked
    in during the third lands in [single_rx]. *)
Lemma spi_sync_single (reply : Spi.reply) (m : machine) :
  wf m -> Spi.ret reply = 0 ->
  let st := priv (indio_dev m) in
  spi_sync (scan_single_msg st) reply m =
    Some (0, log_call (k_spi_sync [single_tx st; single_tx st; 0])
               (with_st (set_single_rx (to_u16 (Spi.miso reply 2))) m)).
Proof.
  intros Hwf Hret st. unfold spi_sync. rewrite decide_True by assumption.
  subst st. destruct Hwf as [_ _ _ _ _ _ Hmsg Hxfer].
  destruct m as [[chans nchans st] log]. cbn in Hmsg, Hxfer.
  destruct st. cbn in Hmsg, Hxfer. subst.
  vm_compute. reflexivity.
Qed.

(** ** Well-formedness is kept by the state updates the driver makes *)

Lemma wf_log_call (c : kcall) (m : machine) : wf m -> wf (log_call c m).
Proof. intros []. constructor; assumption. Qed.

Lemma wf_set_single_tx (v : Z) (m : machine) :
  wf m -> wf (with_st (set_single_tx v) m).
Proof. intros []. constructor; assumption. Qed.

Section DriverProperties.

Context {abi : linux_abi}.

(** ** Single-shot read *)

(** The single-shot read on a well-formed machine, in full: the command
    word goes into [single_tx], the exchange runs under the lock, and the
    result is decided by the word received. *)
Lemma scan_direct_run (ch : Z) (reply : Spi.reply) (m : machine) :
  wf m ->
  let tx := encode ch (settings (priv (indio_dev m))) in
  let rx := to_u16 (Spi.miso reply 2) in
  ti_ads79xx_scan_direct ch reply m =
    if decide (Spi.ret reply = 0) then
      Some (if decide (EXTRACT rx 12 4 ≠ ch) then - EAGAIN else EXTRACT rx 0 12,
            log_call k_mutex_unlock
              (log_call (k_spi_sync [tx; tx; 0])
                 (with_st (set_single_rx rx)
                    (with_st (set_single_tx tx) (log_call k_mutex_lock m)))))
    else
      Some (Spi.ret reply,
            log_call k_mutex_unlock
              (log_call (k_spi_sync [])
                 (with_st (set_single_tx tx) (log_call k_mutex_lock m)))).
Proof.
  intros Hwf tx rx. unfold ti_ads79xx_scan_direct.
  rewrite bind_run. cbn [kernel]. rewrite bind_run.
  unfold modify_st. rewrite !bind_run. cbn [get_st put_st].
  rewrite bind_run. cbn [get_st]. rewrite bind_run.
  fold (encode ch (settings (priv (indio_dev m)))). fold tx.
  set (m1 := with_st _ (log_call k_mutex_lock m)).
  assert (wf m1) as Hwf1 by (apply wf_set_single_tx, wf_log_call, Hwf).
  destruct (decide (Spi.ret reply = 0)) as [Hret | Hret].
  - pose proof (spi_sync_single reply m1 Hwf1 Hret) as Hspi.
    cbv zeta in Hspi. rewrite Hspi. clear Hspi.
    rewrite !bind_run. rewrite decide_False by lia.
    rewrite bind_run. cbn [get_st].
    destruct (decide (EXTRACT _ 12 4 ≠ ch)); reflexivity.
  - rewrite spi_sync_fail by assumption.
    rewrite !bind_run. rewrite decide_True by assumption.
    reflexivity.
Qed.

(** C2: in the single-shot read of channel [ch], after a successful SPI
    exchange: if bits 15..12 of the received word equal [ch], the result
    is bits 11..0 of the word, a non-negative integer; if they differ the
    result is [-EAGAIN]; an SPI error code is returned unchanged. *)
Theorem scan_direct_result (ch : Z) (reply : Spi.reply) (m : machine) :
  wf m ->
  let rx := to_u16 (Spi.miso reply 2) in
  exists (r : Z) (m' : machine),
    ti_ads79xx_scan_direct ch reply m = Some (r, m') /\
    (Spi.ret reply = 0 -> EXTRACT rx 12 4 = ch ->
     r = EXTRACT rx 0 12 /\ 0 <= r < 2 ^ 12) /\
    (Spi.ret reply = 0 -> EXTRACT rx 12 4 ≠ ch -> r = - EAGAIN) /\
    (Spi.ret reply ≠ 0 -> r = Spi.ret reply).
Proof.
  intros Hwf rx.
  pose proof (scan_direct_run ch reply m Hwf) as Hrun. cbv zeta in Hrun.
  fold rx in Hrun.
  destruct (decide (Spi.ret reply = 0)) as [Hret | Hret];
    [destruct (decide (EXTRACT rx 12 4 ≠ ch)) as [Hne | Heq] |];
    do 2 eexists; (split; [exact Hrun|]).
  - repeat split; intros; try contradiction; reflexivity.
  - apply dec_stable in Heq.
    split; [|split; intros; contradiction].
    intros _ _. split; [reflexivity | apply EXTRACT_range; lia].
  - repeat split; intros; try contradiction; reflexivity.
Qed.

(** ** Trigger handler *)

(** C6: every run of the trigger handler calls
    [iio_trigger_notify_done] exactly once, whether the SPI transfer
    succeeds or fails; on failure nothing is pushed to the buffers; on
    success one push is made, of the RX buffer from word offset 2 on and
    the time stamp. *)
Theorem trigger_handler_notifies_once (reply : Spi.reply) (now : Z) (m : machine) :
  wf m ->
  exists (m' : machine) (calls : list kcall),
    ti_ads79xx_trigger_handler reply now m = Some (IRQ_HANDLED, m') /\
    klog m' = klog m ++ calls /\
    notify_done_count calls = 1%nat /\
    (Spi.ret reply ≠ 0 -> pushes calls = []) /\
    (Spi.ret reply = 0 ->
     pushes calls =
       [k_iio_push_to_buffers_with_timestamp 2
          (drop 2 (rx_buf (priv (indio_dev m')))) now]).
Proof.
  intros Hwf. unfold ti_ads79xx_trigger_handler.
  rewrite bind_run. cbn [get_st]. rewrite bind_run.
  destruct (decide (Spi.ret reply = 0)) as [Hret | Hret].
  - pose proof (spi_sync_ring reply m Hwf Hret) as Hspi.
    cbv zeta in Hspi. rewrite Hspi. clear Hspi.
    rewrite decide_False by lia.
    rewrite !bind_run. cbn [get_st kernel]. rewrite !bind_run.
    cbn [kernel mret drv_ret].
    do 2 eexists. split; [reflexivity|].
    split; [cbn; rewrite <- !app_assoc; reflexivity|].
    split; [reflexivity|].
    split; [intros; contradiction | intros _; reflexivity].
  - rewrite spi_sync_fail by assumption.
    rewrite decide_True by assumption.
    rewrite !bind_run. cbn [kernel mret drv_ret].
    do 2 eexists. split; [reflexivity|].
    split; [cbn; rewrite <- !app_assoc; reflexivity|].
    split; [reflexivity|].
    split; [intros _; reflexivity | intros; contradiction].
Qed.

(** ** Range and [read_raw] *)

Lemma range_5v_bit (s : Z) :
  Z.land s ADS79XX_CR_RANGE_5V ≠ 0 <-> Z.testbit s 6 = true.
Proof.
  unfold ADS79XX_CR_RANGE_5V. rewrite Z.shiftl_1_l.
  assert (Z.land s (2 ^ 6) = if Z.testbit s 6 then 2 ^ 6 else 0) as ->.
  { apply Z.bits_inj'. intros n Hn.
    rewrite Z.land_spec, Z.pow2_bits_eqb by lia.
    destruct (Z.eqb_spec 6 n) as [<- | Hne].
    - destruct (Z.testbit s 6); [reflexivity | rewrite Z.bits_0; reflexivity].
    - rewrite andb_false_r.
      destruct (Z.testbit s 6); [|rewrite Z.bits_0; reflexivity].
      rewrite Z.pow2_bits_eqb by lia. symmetry. apply Z.eqb_neq. exact Hne. }
  destruct (Z.testbit s 6); split; intros H; try discriminate; try reflexivity.
  contradiction.
Qed.

(** The full-scale range in millivolts for a regulator reading of
    [voltage] microvolts under the settings word [s]. *)
Lemma get_range_run (voltage : Z) (m : machine) :
  int_range voltage ->
  ti_ads79xx_get_range voltage m =
    Some (if decide (voltage < 0) then voltage
          else if Z.testbit (settings (priv (indio_dev m))) 6
               then 2 * (voltage / 1000) else voltage / 1000,
          log_call k_regulator_get_voltage m).
Proof.
  intros Hv. unfold int_range, INT_MIN, INT_MAX in Hv.
  unfold ti_ads79xx_get_range.
  rewrite bind_run. cbn [get_st]. rewrite bind_run. cbn [kernel]. cbv zeta.
  destruct (decide (voltage < 0)) as [Hneg | Hpos]; [reflexivity|].
  assert (0 <= voltage / 1000 < 2147484) as Hq.
  { split; [apply Z.div_pos; lia | apply Z.div_lt_upper_bound; lia]. }
  unfold int_div, int_mul. rewrite Z.quot_div_nonneg by lia.
  rewrite (to_int_small (voltage / 1000))
    by (unfold int_range, INT_MIN, INT_MAX; lia).
  destruct (Z.testbit (settings (priv (indio_dev m))) 6) eqn:Hbit.
  - rewrite decide_True by (apply range_5v_bit; exact Hbit).
    rewrite to_int_small by (unfold int_range, INT_MIN, INT_MAX; lia).
    unfold mret, drv_ret. rewrite Z.mul_comm. reflexivity.
  - rewrite decide_False; [reflexivity|].
    rewrite range_5v_bit, Hbit. discriminate.
Qed.

(** C8 (amended): a [read_raw] call whose info mask is neither RAW nor
    SCALE returns [-EINVAL], the invalid-argument code, and touches
    nothing: neither output is written and the state is as before. *)
Theorem read_raw_other_mask (chan : iio_chan_spec) (val val2 mask : Z)
    (reply : Spi.reply) (voltage : Z) (m : machine) :
  mask ≠ IIO_CHAN_INFO_RAW ->
  mask ≠ IIO_CHAN_INFO_SCALE ->
  ti_ads79xx_read_raw chan val val2 mask reply voltage m =
    Some ((- EINVAL, val, val2), m).
Proof.
  intros Hraw Hscale. unfold ti_ads79xx_read_raw.
  rewrite !decide_False by assumption. reflexivity.
Qed.

(** C4: for a regulator reading of [voltage] microvolts, not negative,
    [ti_ads79xx_get_range] returns [2 * (voltage / 1000)] when the
    5V-range bit of the settings is set and [voltage / 1000] when it is
    clear, and [read_raw] with the SCALE mask returns
    [IIO_VAL_FRACTIONAL] with that value as numerator and
    [2 ^ realbits - 1] as denominator; a negative reading is returned as
    it is by both. *)
Theorem get_range_scale (id : ti_ads79xx_id) (chan : iio_chan_spec)
    (val val2 voltage : Z) (reply : Spi.reply) (m : machine) :
  int_range voltage ->
  IIO_CHAN_INFO_RAW ≠ IIO_CHAN_INFO_SCALE ->
  chan ∈ channels (ti_ads79xx_chip_info id) ->
  type chan = IIO_VOLTAGE ->
  let m' := log_call k_regulator_get_voltage m in
  let full_scale :=
    if Z.testbit (settings (priv (indio_dev m))) 6
    then 2 * (voltage / 1000) else voltage / 1000 in
  (0 <= voltage ->
   ti_ads79xx_get_range voltage m = Some (full_scale, m') /\
   ti_ads79xx_read_raw chan val val2 IIO_CHAN_INFO_SCALE reply voltage m =
     Some ((IIO_VAL_FRACTIONAL, full_scale,
            2 ^ realbits (scan_type chan) - 1), m')) /\
  (voltage < 0 ->
   ti_ads79xx_get_range voltage m = Some (voltage, m') /\
   ti_ads79xx_read_raw chan val val2 IIO_CHAN_INFO_SCALE reply voltage m =
     Some ((voltage, val, val2), m')).
Proof.
  intros Hv Hdistinct Hin Hty m' full_scale.
  pose proof (get_range_run voltage m Hv) as Hrun.
  assert (0 <= voltage -> 0 <= full_scale) as Hfs.
  { intros Hpos. unfold full_scale.
    assert (0 <= voltage / 1000) by (apply Z.div_pos; lia).
    destruct (Z.testbit _ 6); lia. }
  assert (to_int (to_int (Z.shiftl 1 (realbits (scan_type chan))) - 1) =
          2 ^ realbits (scan_type chan) - 1) as Hden.
  { destruct (channel_bits id chan Hin Hty) as [-> _].
    destruct id; reflexivity. }
  unfold ti_ads79xx_read_raw.
  rewrite decide_False by (intros E; apply Hdistinct; symmetry; exact E).
  rewrite decide_True by reflexivity.
  rewrite bind_run, Hrun. fold m'.
  split; intros Hsign.
  - rewrite decide_False by lia. fold full_scale.
    split; [reflexivity|].
    rewrite decide_False by (specialize (Hfs Hsign); lia).
    cbv zeta. rewrite Hden. reflexivity.
  - rewrite decide_True by assumption.
    split; [reflexivity|].
    rewrite decide_True by assumption. reflexivity.
Qed.

(** C5: for a voltage channel of a variant with resolution [r] and a
    single-shot read that succeeds with sample [v], [read_raw] with the
    RAW mask returns [IIO_VAL_INT] and the value [v >> (12 - r)], which
    lies in [0 .. 2 ^ r - 1]. *)
Theorem read_raw_sample (id : ti_ads79xx_id) (chan : iio_chan_spec)
    (val val2 voltage : Z) (reply : Spi.reply) (m : machine) :
  wf m ->
  chan ∈ channels (ti_ads79xx_chip_info id) ->
  type chan = IIO_VOLTAGE ->
  Spi.ret reply = 0 ->
  let rx := to_u16 (Spi.miso reply 2) in
  EXTRACT rx 12 4 = address chan ->
  let v := EXTRACT rx 0 12 in
  let r := variant_bits id in
  exists m',
    ti_ads79xx_scan_direct (address chan) reply m = Some (v, m') /\
    ti_ads79xx_read_raw chan val val2 IIO_CHAN_INFO_RAW reply voltage m =
      Some ((IIO_VAL_INT, Z.shiftr v (12 - r), val2), m') /\
    0 <= Z.shiftr v (12 - r) <= 2 ^ r - 1.
Proof.
  intros Hwf Hin Hty Hret rx Htag v r.
  destruct (channel_bits id chan Hin Hty) as (Hbits & Hshift & Haddr).
  pose proof (scan_direct_run (address chan) reply m Hwf) as Hrun.
  cbv zeta in Hrun. fold rx in Hrun.
  rewrite decide_True in Hrun by assumption.
  rewrite decide_False in Hrun by (intros Hne; apply Hne; exact Htag).
  fold v in Hrun.
  assert (0 <= v < 2 ^ 12) as Hvr by (apply EXTRACT_range; lia).
  assert (0 <= Z.shiftr v (12 - r) <= 2 ^ r - 1) as Hres.
  { rewrite Z.shiftr_div_pow2 by (unfold r; destruct id; cbn; lia).
    assert (2 ^ 12 = 2 ^ (12 - r) * 2 ^ r) as Hsplit
      by (unfold r; destruct id; reflexivity).
    assert (0 < 2 ^ (12 - r)) by (unfold r; destruct id; reflexivity).
    split; [apply Z.div_pos; lia|].
    assert (v / 2 ^ (12 - r) < 2 ^ r); [|lia].
    apply Z.div_lt_upper_bound; lia. }
  eexists. split; [exact Hrun|]. split; [|exact Hres].
  unfold ti_ads79xx_read_raw. rewrite decide_True by reflexivity.
  rewrite to_u32_small by (unfold ADS79XX_MAX_CHAN in Haddr; lia).
  rewrite bind_run, Hrun.
  rewrite decide_False by lia. cbv zeta.
  rewrite Hshift. fold r.
  rewrite to_int_small; [reflexivity|].
  unfold int_range, INT_MIN, INT_MAX.
  assert (2 ^ r <= 2 ^ 12) by (unfold r; destruct id; cbn; lia).
  lia.
Qed.

(** ** The invariant of a probed device *)

Lemma preserves_bind P {A B} (c : drv A) (f : A -> drv B) :
  preserves P c -> (forall a, preserves P (f a)) -> preserves P (c ≫= f).
Proof.
  intros Hc Hf m b m' HP Hrun.
  apply bind_Some in Hrun as (a & m1 & Hc1 & Hf1).
  eapply Hf; [eapply Hc; eassumption | eassumption].
Qed.

Lemma preserves_ret P {A} (a : A) : preserves P (mret a).
Proof. intros m a' m' HP [= _ <-]. exact HP. Qed.

Lemma preserves_undefined P {A} : preserves P (@undefined A).
Proof. intros m a m' _ [=]. Qed.

Lemma preserves_get_st P : preserves P get_st.
Proof. intros m a m' HP [= _ <-]. exact HP. Qed.

Lemma preserves_get_dev P : preserves P get_dev.
Proof. intros m a m' HP [= _ <-]. exact HP. Qed.

Lemma preserves_for_each P {A} (mask : Z) (body : Z -> A -> drv A) :
  (forall i acc, preserves P (body i acc)) ->
  forall n bit acc, preserves P (for_each_set_bit_from mask bit n body acc).
Proof.
  intros Hbody. induction n as [|n IH]; intros bit acc; cbn [for_each_set_bit_from].
  - apply preserves_ret.
  - apply preserves_bind; [|intros a; apply IH].
    destruct (Z.testbit mask bit); [apply Hbody | apply preserves_ret].
Qed.

Section Invariant.

Variable id : ti_ads79xx_id.

Lemma inv_log_call (c : kcall) (m : machine) :
  driver_inv id m -> driver_inv id (log_call c m).
Proof. intros (Hwf & Hid & Hs). split; [apply wf_log_call, Hwf | split; assumption]. Qed.

Lemma inv_kernel (c : kcall) : preserves (driver_inv id) (kernel c).
Proof. intros m a m' HP [= _ <-]. apply inv_log_call, HP. Qed.

(** A buffer write that keeps the buffer's size keeps the invariant. *)
Lemma inv_set_buf_words (b : buf_ref) (ws : list Z) (m : machine) :
  length ws = length (buf_words b (priv (indio_dev m))) ->
  driver_inv id m ->
  driver_inv id (with_st (set_buf_words b ws) m).
Proof.
  intros Hlen ([] & Hid & Hs).
  split; [|split; [exact Hid | destruct b; exact Hs]].
  destruct b; cbn in Hlen; constructor; cbn; congruence.
Qed.

Lemma inv_tx_buf_store (i v : Z) : preserves (driver_inv id) (tx_buf_store i v).
Proof.
  intros m a m' HP. unfold tx_buf_store, array_store.
  rewrite bind_run. cbn [get_st].
  destruct (decide (0 <= i < TX_BUF_SIZE)); [|discriminate].
  intros [= _ <-].
  apply (inv_set_buf_words TX_BUF); [apply length_insert | exact HP].
Qed.

Lemma inv_load_words (b : buf_ref) (n : Z) :
  preserves (driver_inv id) (load_words b n).
Proof.
  unfold load_words. apply preserves_bind; [apply preserves_get_st|].
  intros st. destruct (decide _); [apply preserves_ret | apply preserves_undefined].
Qed.

Lemma inv_store_words (b : buf_ref) (ws : list Z) :
  preserves (driver_inv id) (store_words b ws).
Proof.
  intros m a m' HP. unfold store_words.
  rewrite bind_run. cbn [get_st].
  destruct (decide _) as [Hfit|]; [|discriminate].
  intros [= _ <-].
  apply (inv_set_buf_words b); [|exact HP].
  assert (Z.of_nat (length (buf_words b (priv (indio_dev m)))) = buf_size b) as Hsz.
  { destruct HP as ([Htx Hrx] & _).
    destruct b; cbn [buf_words buf_size];
      rewrite ?Htx, ?Hrx; unfold TX_BUF_SIZE, RX_BUF_SIZE, ADS79XX_MAX_CHAN;
      reflexivity. }
  rewrite length_app, length_map, length_drop. lia.
Qed.

Lemma inv_spi_transfers (miso : nat -> Z) :
  forall xs pos, preserves (driver_inv id) (spi_transfers xs pos miso).
Proof.
  induction xs as [|r xs IH]; intros pos; cbn [spi_transfers].
  - apply preserves_ret.
  - apply preserves_bind; [apply preserves_get_st|]. intros st.
    destruct (lookup_xfer r st) as [x|]; [|apply preserves_undefined].
    apply preserves_bind.
    { destruct (Spi.tx_buf x); [apply inv_load_words | apply preserves_ret]. }
    intros sent. apply preserves_bind.
    { destruct (Spi.rx_buf x); [apply inv_store_words | apply preserves_ret]. }
    intros _. apply preserves_bind; [apply IH|].
    intros rest. apply preserves_ret.
Qed.

Lemma inv_spi_sync (msg : Spi.message) (reply : Spi.reply) :
  preserves (driver_inv id) (spi_sync msg reply).
Proof.
  unfold spi_sync. destruct (decide _).
  - apply preserves_bind; [apply inv_spi_transfers|]. intros mosi.
    apply preserves_bind; [apply inv_kernel|]. intros _. apply preserves_ret.
  - apply preserves_bind; [apply inv_kernel|]. intros _. apply preserves_ret.
Qed.

Lemma inv_trigger_handler (reply : Spi.reply) (now : Z) :
  preserves (driver_inv id) (ti_ads79xx_trigger_handler reply now).
Proof.
  unfold ti_ads79xx_trigger_handler.
  apply preserves_bind; [apply preserves_get_st|]. intros st.
  apply preserves_bind; [apply inv_spi_sync|]. intros err.
  apply preserves_bind.
  { destruct (decide _); [apply preserves_ret|].
    apply preserves_bind; [apply preserves_get_st|]. intros st'.
    apply inv_kernel. }
  intros _. apply preserves_bind; [apply inv_kernel|].
  intros _. apply preserves_ret.
Qed.

Lemma inv_scan_direct (ch : Z) (reply : Spi.reply) :
  preserves (driver_inv id) (ti_ads79xx_scan_direct ch reply).
Proof.
  unfold ti_ads79xx_scan_direct.
  apply preserves_bind; [apply inv_kernel|]. intros _.
  apply preserves_bind.
  { intros m a m' HP [= _ <-].
    apply (inv_set_buf_words SINGLE_TX [_]); [reflexivity | exact HP]. }
  intros _. apply preserves_bind; [apply preserves_get_st|]. intros st.
  apply preserves_bind; [apply inv_spi_sync|]. intros ret.
  apply preserves_bind.
  { destruct (decide _); [apply preserves_ret|].
    apply preserves_bind; [apply preserves_get_st|]. intros st'.
    destruct (decide _); apply preserves_ret. }
  intros r. apply preserves_bind; [apply inv_kernel|].
  intros _. apply preserves_ret.
Qed.

Lemma inv_get_range (voltage : Z) :
  preserves (driver_inv id) (ti_ads79xx_get_range voltage).
Proof.
  unfold ti_ads79xx_get_range.
  apply preserves_bind; [apply preserves_get_st|]. intros st.
  apply preserves_bind; [apply inv_kernel|]. intros _. cbv zeta.
  destruct (decide _); apply preserves_ret.
Qed.

Lemma inv_read_raw (chan : iio_chan_spec) (val val2 mask : Z)
    (reply : Spi.reply) (voltage : Z) :
  preserves (driver_inv id)
    (ti_ads79xx_read_raw chan val val2 mask reply voltage).
Proof.
  unfold ti_ads79xx_read_raw.
  destruct (decide _); [|destruct (decide _)].
  - apply preserves_bind; [apply inv_scan_direct|]. intros ret.
    destruct (decide _); apply preserves_ret.
  - apply preserves_bind; [apply inv_get_range|]. intros ret.
    destruct (decide _); apply preserves_ret.
  - apply preserves_ret.
Qed.

Lemma tx_buf_store_Some (i v : Z) (m : machine) a m' :
  tx_buf_store i v m = Some (a, m') -> 0 <= i < TX_BUF_SIZE.
Proof.
  unfold tx_buf_store, array_store. rewrite bind_run. cbn [get_st].
  destruct (decide (0 <= i < TX_BUF_SIZE)); [intros _; assumption | discriminate].
Qed.

Lemma inv_update_scan_mode (mask : Z) :
  preserves (driver_inv id) (ti_ads79xx_update_scan_mode mask).
Proof.
  intros m a m' HP. unfold ti_ads79xx_update_scan_mode.
  rewrite bind_run. cbn [get_dev]. intros Hrun.
  apply bind_Some in Hrun as (len & m1 & Hloop & Hrun).
  apply bind_Some in Hrun as ([] & m2 & Hst1 & Hrun).
  apply bind_Some in Hrun as ([] & m3 & Hst2 & Hrun).
  cbv zeta in Hrun.
  apply bind_Some in Hrun as ([] & m4 & Hlen & [= _ <-]).
  assert (driver_inv id m1) as HP1.
  { revert Hloop. apply preserves_for_each; [|exact HP].
    intros i acc. apply preserves_bind; [apply preserves_get_st|]. intros st.
    cbv zeta. apply preserves_bind; [apply inv_tx_buf_store|].
    intros _. apply preserves_ret. }
  assert (driver_inv id m3) as HP3.
  { eapply inv_tx_buf_store; [|exact Hst2].
    eapply inv_tx_buf_store; [exact HP1 | exact Hst1]. }
  apply tx_buf_store_Some in Hst1. apply tx_buf_store_Some in Hst2.
  unfold modify_st in Hlen. rewrite bind_run in Hlen. cbn [get_st put_st] in Hlen.
  injection Hlen as <-.
  destruct HP3 as ([] & Hid & Hs).
  split; [|split; assumption].
  constructor; try assumption. cbn.
  unfold TX_BUF_SIZE, ADS79XX_MAX_CHAN in *.
  rewrite to_u32_small; lia.
Qed.

Lemma inv_run_op (o : op) : preserves (driver_inv id) (run_op o).
Proof.
  destruct o; cbn [run_op];
    (apply preserves_bind; [|intros ?; apply preserves_ret]).
  - apply inv_update_scan_mode.
  - apply inv_trigger_handler.
  - apply inv_scan_direct.
  - apply inv_get_range.
  - apply inv_read_raw.
Qed.

(** A probe that returns 0 leaves the invariant. *)
Lemma probe_inv (env : probe_env) (m : machine) :
  errno_ok abi ->
  ti_ads79xx_probe id env boot = Some (0, m) ->
  driver_inv id m.
Proof.
  intros [Hnomem Hmax] Hrun.
  assert (forall p, IS_ERR p = true -> to_int (PTR_ERR p) ≠ 0) as Herr.
  { intros p Hp. unfold IS_ERR in Hp.
    apply andb_prop in Hp as [Hlo Hhi].
    apply Z.leb_le in Hlo. apply Z.ltb_lt in Hhi.
    unfold PTR_ERR. rewrite to_int_small; [lia|].
    unfold int_range, INT_MIN, INT_MAX. lia. }
  unfold ti_ads79xx_probe, error_unregister_iio_device, error_cleanup_ring,
    error_disable_reg, modify_st in Hrun.
  repeat (rewrite bind_run in Hrun;
          cbn [kernel get_st put_st set_dev_channels] in Hrun).
  cbv zeta in Hrun.
  destruct (decide (spi_setup_ret env < 0)) as [Hneg|_].
  { injection Hrun as Hret _. lia. }
  destruct (devm_iio_device_alloc_ok env); cbn [negb] in Hrun.
  2:{ injection Hrun as Hret _. lia. }
  repeat (rewrite bind_run in Hrun;
          cbn [kernel get_st put_st set_dev_channels] in Hrun).
  cbn [with_st log_call indio_dev priv klog reg set_reg] in Hrun.
  destruct (IS_ERR (devm_regulator_get_ptr env)) eqn:Hreg.
  { apply Herr in Hreg.
    apply bind_Some in Hrun as (? & ? & _ & [= Hret _]). contradiction. }
  repeat (rewrite bind_run in Hrun;
          cbn [kernel get_st put_st set_dev_channels] in Hrun).
  destruct (decide (regulator_enable_ret env ≠ 0)).
  { injection Hrun as Hret _. contradiction. }
  repeat (rewrite bind_run in Hrun;
          cbn [kernel get_st put_st set_dev_channels] in Hrun).
  destruct (decide (iio_triggered_buffer_setup_ret env ≠ 0)).
  { injection Hrun as Hret _. contradiction. }
  repeat (rewrite bind_run in Hrun;
          cbn [kernel get_st put_st set_dev_channels] in Hrun).
  destruct (decide (iio_device_register_ret env ≠ 0)).
  { injection Hrun as Hret _. contradiction. }
  repeat (rewrite bind_run in Hrun;
          cbn [kernel get_st put_st set_dev_channels] in Hrun).
  cbn [with_st log_call indio_dev priv klog hrtimer_trigger
       set_hrtimer_trigger] in Hrun.
  destruct (IS_ERR (iio_sw_trigger_create_ptr env)) eqn:Htrig.
  { apply Herr in Htrig.
    repeat (rewrite bind_run in Hrun; cbn [kernel] in Hrun).
    injection Hrun as Hret _. contradiction. }
  repeat (rewrite bind_run in Hrun; cbn [kernel] in Hrun).
  injection Hrun as <-.
  split; [|split].
  - constructor; try reflexivity. cbn. unfold TX_BUF_SIZE, ADS79XX_MAX_CHAN. lia.
  - split; reflexivity.
  - reflexivity.
Qed.

Lemma reachable_inv (m : machine) :
  errno_ok abi -> reachable id m -> driver_inv id m.
Proof.
  intros Habi Hreach. induction Hreach as [env m Hprobe | m o m' _ IH Hstep].
  - eapply probe_inv; eassumption.
  - eapply inv_run_op; eassumption.
Qed.

End Invariant.

(** C9: probe sets the settings word to MANUAL | RANGE_5V, and every
    operation that runs afterwards (scan-mode update, single-shot read,
    trigger handler, range computation, [read_raw]) leaves it as it is; so
    in every machine a probed device reaches, the settings word has no bit
    set other than bit 12 (MANUAL) and bit 6 (RANGE_5V). *)
Theorem settings_fixed (id : ti_ads79xx_id) (m : machine) :
  errno_ok abi ->
  reachable id m ->
  settings (priv (indio_dev m)) = Z.lor ADS79XX_CR_MANUAL ADS79XX_CR_RANGE_5V /\
  (forall n, 0 <= n -> n ≠ 12 -> n ≠ 6 ->
             Z.testbit (settings (priv (indio_dev m))) n = false) /\
  (forall o m', run_op o m = Some (tt, m') ->
                settings (priv (indio_dev m')) = settings (priv (indio_dev m))).
Proof.
  intros Habi Hreach.
  pose proof (reachable_inv id m Habi Hreach) as Hinv.
  destruct Hinv as (Hwf & Hid & Hs).
  split; [exact Hs|]. split.
  - intros n Hn H12 H6. rewrite Hs.
    unfold ADS79XX_CR_MANUAL, ADS79XX_CR_RANGE_5V.
    rewrite Z.lor_spec, !Z.shiftl_1_l, !Z.pow2_bits_eqb by lia.
    apply orb_false_intro; apply Z.eqb_neq; congruence.
  - intros o m' Hstep. rewrite Hs.
    eapply (inv_run_op id o m tt m'); [|exact Hstep].
    split; [exact Hwf | split; [exact Hid | exact Hs]].
Qed.

End DriverProperties.

(** ** Concrete runs

    The theorems above at the scenarios of the specification, on a device
    probed under the Linux 4.x constants. *)

Lemma linux_4_errno_ok : errno_ok linux_4.
Proof. unfold errno_ok. cbn. lia. Qed.

Lemma probed_reachable (id : ti_ads79xx_id) : reachable (abi := linux_4) id (probed id).
Proof.
  apply reachable_probe with (env := probe_ok_env).
  destruct id; vm_compute; reflexivity.
Qed.

Lemma probed_inv (id : ti_ads79xx_id) : driver_inv id (probed id).
Proof.
  apply (reachable_inv (abi := linux_4)); [apply linux_4_errno_ok | apply probed_reachable].
Qed.

Lemma probed_wf (id : ti_ads79xx_id) : wf (probed id).
Proof. apply probed_inv. Qed.

Lemma probed_probed_as (id : ti_ads79xx_id) : probed_as id (probed id).
Proof. apply probed_inv. Qed.

Lemma set_bits_0x92 : set_bits_ascending 0x92 [1; 4; 7].
Proof. apply (set_bits_from_all 0x92 8). lia. Qed.

Lemma set_bits_0x3 : set_bits_ascending 0x3 [0; 1].
Proof. apply (set_bits_from_all 0x3 2). lia. Qed.

(** Scan set-up with mask {1,4,7} on an 8-channel part. *)
Lemma update_scan_mode_tx_witness :
  scan_mask ADS7951 0x92 /\
  set_bits_ascending 0x92 [1; 4; 7] /\
  exists m' : machine,
    ti_ads79xx_update_scan_mode 0x92 (probed ADS7951) = Some (0, m') /\
    take 5 (tx_buf (priv (indio_dev m'))) = [0x18C0; 0x1A40; 0x1BC0; 0; 0] /\
    Spi.len (ring_xfer (priv (indio_dev m'))) = 10.
Proof.
  assert (scan_mask ADS7951 0x92) as Hmask
    by (vm_compute; split; [discriminate | reflexivity]).
  split; [exact Hmask|]. split; [exact set_bits_0x92|].
  destruct (update_scan_mode_tx ADS7951 0x92 [1; 4; 7] (probed ADS7951)
              (probed_inv ADS7951) Hmask set_bits_0x92)
    as (m' & Hrun & _ & Htx & Hlen).
  exists m'. split; [exact Hrun|]. split; [exact Htx | exact Hlen].
Defined.

Lemma update_scan_mode_returns_0_witness :
  scan_mask ADS7953 0xFFFF /\
  (exists m', ti_ads79xx_update_scan_mode 0xFFFF (probed ADS7953) = Some (0, m')) /\
  (forall mask' a m',
     ti_ads79xx_update_scan_mode mask' (probed ADS7953) = Some (a, m') -> a = 0) /\
  (exists m0,
     ti_ads79xx_update_scan_mode 0 (probed ADS7953) = Some (0, m0) /\
     tx_buf (priv (indio_dev m0)) =
       0 :: 0 :: drop 2 (tx_buf (priv (indio_dev (probed ADS7953)))) /\
     Spi.len (ring_xfer (priv (indio_dev m0))) = 4).
Proof.
  assert (scan_mask ADS7953 0xFFFF) as Hmask by (vm_compute; split; [discriminate | reflexivity]).
  split; [exact Hmask|].
  exact (update_scan_mode_returns_0 ADS7953 0xFFFF (probed ADS7953)
           (probed_wf ADS7953) (probed_probed_as ADS7953) Hmask).
Defined.

(** Single-shot, 12-bit part: channel 3, the bus returns 0x3ABC. *)
Lemma scan_direct_result_witness :
  exists (r : Z) (m' : machine),
    ti_ads79xx_scan_direct (abi := linux_4) 3 (bus 0 [0; 0; 0x3ABC]) (probed ADS7950)
      = Some (r, m') /\
    r = 0xABC.
Proof.
  destruct (scan_direct_result (abi := linux_4) 3 (bus 0 [0; 0; 0x3ABC])
              (probed ADS7950) (probed_wf ADS7950))
    as (r & m' & Hrun & Hok & _ & _).
  exists r, m'. split; [exact Hrun|].
  apply Hok; reflexivity.
Defined.

(** The trigger handler on a successful transfer. *)
Lemma trigger_handler_notifies_once_witness :
  exists (m' : machine) (calls : list kcall),
    ti_ads79xx_trigger_handler (abi := linux_4) (bus 0 []) 1 (probed ADS7950)
      = Some (1, m') /\
    klog m' = klog (probed ADS7950) ++ calls /\
    notify_done_count calls = 1%nat.
Proof.
  destruct (trigger_handler_notifies_once (abi := linux_4) (bus 0 []) 1
              (probed ADS7950) (probed_wf ADS7950))
    as (m' & calls & Hrun & Hlog & Hcount & _).
  exists m', calls. auto.
Defined.

(** Scale, 5V range, Vref = 2,500,000 uV, realbits = 12. *)
Lemma get_range_scale_witness :
  ti_ads79xx_get_range 2500000 (probed ADS7950) =
    Some (5000, log_call k_regulator_get_voltage (probed ADS7950)) /\
  ti_ads79xx_read_raw (abi := linux_4) (ADS79XX_V_CHAN 0 12) 0 0 2 (bus 0 [])
      2500000 (probed ADS7950) =
    Some ((10, 5000, 4095), log_call k_regulator_get_voltage (probed ADS7950)).
Proof.
  assert (int_range 2500000) as Hv by (vm_compute; split; discriminate).
  assert (ADS79XX_V_CHAN 0 12 ∈ channels (ti_ads79xx_chip_info ADS7950)) as Hin
    by (apply list_elem_of_here).
  refine (proj1 (get_range_scale (abi := linux_4) ADS7950 (ADS79XX_V_CHAN 0 12)
                   0 0 2500000 (bus 0 []) (probed ADS7950) Hv _ Hin eq_refl) _).
  - discriminate.
  - lia.
Defined.

(** Single-shot through [read_raw] on a 10-bit part. *)
Lemma read_raw_sample_witness :
  exists m',
    ti_ads79xx_read_raw (abi := linux_4) (ADS79XX_V_CHAN 1 10) 0 0 0
      (bus 0 [0; 0; 0x1ABC]) 0 (probed ADS7954) =
    Some ((1, 0x2AF, 0), m').
Proof.
  assert (ADS79XX_V_CHAN 1 10 ∈ channels (ti_ads79xx_chip_info ADS7954)) as Hin
    by (apply list_elem_of_further, list_elem_of_here).
  destruct (read_raw_sample (abi := linux_4) ADS7954 (ADS79XX_V_CHAN 1 10) 0 0 0
              (bus 0 [0; 0; 0x1ABC]) (probed ADS7954) (probed_wf ADS7954)
              Hin eq_refl eq_refl eq_refl)
    as (m' & _ & Hraw & _).
  exists m'. exact Hraw.
Defined.

Lemma read_raw_other_mask_witness :
  ti_ads79xx_read_raw (abi := linux_4) (ADS79XX_V_CHAN 0 12) 7 9 1 (bus 0 []) 0
    (probed ADS7950) =
  Some ((-22, 7, 9), probed ADS7950).
Proof.
  apply (read_raw_other_mask (abi := linux_4)); discriminate.
Defined.

(** C8 as stated fails: under the Linux constants a [read_raw] call with
    info mask 1 (neither RAW = 0 nor SCALE = 2) returns -22, [-EINVAL],
    which is neither of the kernel's "not supported" codes. *)
Lemma read_raw_not_supported_counterexample :
  1 ≠ IIO_CHAN_INFO_RAW (linux_abi := linux_4) /\
  1 ≠ IIO_CHAN_INFO_SCALE (linux_abi := linux_4) /\
  ti_ads79xx_read_raw (abi := linux_4) (ADS79XX_V_CHAN 0 12) 7 9 1 (bus 0 []) 0
    (probed ADS7950) =
  Some ((-22, 7, 9), probed ADS7950) /\
  -22 = - EINVAL (linux_abi := linux_4) /\
  -22 ≠ - EOPNOTSUPP /\ -22 ≠ - ENOTSUPP.
Proof.
  split; [discriminate|]. split; [discriminate|].
  split; [unfold ti_ads79xx_read_raw; rewrite !decide_False by discriminate;
          reflexivity|].
  split; [reflexivity|]. split; discriminate.
Qed.

Lemma channel_shift_witness :
  realbits (scan_type (ADS79XX_V_CHAN 2 8)) = variant_bits ADS7958 /\
  shift (scan_type (ADS79XX_V_CHAN 2 8)) = 12 - variant_bits ADS7958 /\
  (variant_bits ADS7958 = 12 /\ shift (scan_type (ADS79XX_V_CHAN 2 8)) = 0 \/
   variant_bits ADS7958 = 10 /\ shift (scan_type (ADS79XX_V_CHAN 2 8)) = 2 \/
   variant_bits ADS7958 = 8 /\ shift (scan_type (ADS79XX_V_CHAN 2 8)) = 4).
Proof.
  apply (channel_shift ADS7958 (ADS79XX_V_CHAN 2 8)); [|reflexivity].
  apply list_elem_of_further, list_elem_of_further, list_elem_of_here.
Defined.

Lemma settings_fixed_witness :
  settings (priv (indio_dev (probed ADS7953))) = 0x1040.
Proof.
  exact (proj1 (settings_fixed (abi := linux_4) ADS7953 (probed ADS7953)
                  linux_4_errno_ok (probed_reachable ADS7953))).
Defined.

(** Single-shot, 10-bit part, wrong-channel echo: channel 1 requested, the
    bus returns 0x2001. *)
Example scan_direct_wrong_channel :
  match ti_ads79xx_scan_direct (abi := linux_4) 1 (bus 0 [0; 0; 0x2001])
          (probed ADS7954) with
  | Some (r, _) => r = - 11
  | None => False
  end.
Proof. vm_compute. reflexivity. Qed.

(** Scan handler, mask = {0,1}, RX = [0, 0, 0x0AAA, 0x1BBB, 0]: the two
    samples are the first words pushed. *)
Example trigger_handler_payload :
  match (ti_ads79xx_update_scan_mode 0x3;;
         ti_ads79xx_trigger_handler (abi := linux_4)
           (bus 0 [0; 0; 0x0AAA; 0x1BBB; 0]) 5) (probed ADS7950) with
  | Some (_, m') =>
      exists rest,
        pushes (klog m') =
          [k_iio_push_to_buffers_with_timestamp 2 (0x0AAA :: 0x1BBB :: rest) 5]
  | None => False
  end.
Proof. vm_compute. eexists. reflexivity. Qed.

(** An SPI failure in the handler: no push, one notify. *)
Example trigger_handler_spi_failure :
  match ti_ads79xx_trigger_handler (abi := linux_4) (bus (-5) []) 5
          (probed ADS7950) with
  | Some (r, m') =>
      r = 1 /\ pushes (klog m') = [] /\
      notify_done_count (klog m') = 1%nat
  | None => False
  end.
Proof. vm_compute. repeat split; reflexivity. Qed.

(** The loop of [ti_ads79xx_update_scan_mode] runs to [num_channels], which
    counts the time stamp: on a 4-channel part its index may be set too; on
    a 16-channel part all seventeen bits would need nineteen words of the
    eighteen of [tx_buf].  The IIO core keeps the time stamp out of
    [active_scan_mask]. *)
Example update_scan_mode_timestamp_bit :
  ti_ads79xx_update_scan_mode 0x1FFFF (probed ADS7953) = None /\
  (exists m', ti_ads79xx_update_scan_mode 0x1F (probed ADS7950) = Some (0, m')).
Proof. split; [vm_compute; reflexivity | eexists; vm_compute; reflexivity]. Qed.

(** * Further properties of the driver *)

(** ** Scan pipeline *)

(** The machine [ti_ads79xx_update_scan_mode] leaves is well formed. *)
Lemma wf_update_scan_mode (tx : list Z) (len : Z) (m : machine) :
  length tx = Z.to_nat TX_BUF_SIZE ->
  0 <= len <= 2 * TX_BUF_SIZE ->
  wf m ->
  wf (with_st (fun st => set_ring_xfer_len len (set_tx_buf tx st)) m).
Proof. intros Htx Hlen []. constructor; assumption. Qed.

Lemma scan_tx_length (cmds tx : list Z) :
  (length cmds + 2 <= length tx)%nat ->
  length (cmds ++ 0 :: 0 :: drop (length cmds + 2) tx) = length tx.
Proof.
  intros H. rewrite length_app. cbn [length]. rewrite length_drop. lia.
Qed.

(** ** Response words *)

Lemma response_word_testbit (tag code n : Z) :
  0 <= code < 2 ^ 12 -> 0 <= n ->
  Z.testbit (response_word tag code) n =
    if n <? 12 then Z.testbit code n else Z.testbit tag (n - 12).
Proof.
  intros Hcode Hn. unfold response_word. rewrite Z.lor_spec.
  destruct (Z.ltb_spec n 12).
  - rewrite Z.shiftl_spec_low by lia. reflexivity.
  - rewrite Z.shiftl_spec by lia.
    rewrite (testbit_above code 12 n) by lia. apply orb_false_r.
Qed.

Lemma response_word_fields (tag code : Z) :
  0 <= tag < 16 -> 0 <= code < 2 ^ 12 ->
  to_u16 (response_word tag code) = response_word tag code /\
  EXTRACT (response_word tag code) 12 4 = tag /\
  EXTRACT (response_word tag code) 0 12 = code.
Proof.
  intros Htag Hcode. split; [|split]; apply Z.bits_inj'; intros n Hn.
  - unfold to_u16. destruct (Z.lt_ge_cases n 16).
    + apply Z.mod_pow2_bits_low. lia.
    + rewrite Z.mod_pow2_bits_high by lia.
      rewrite response_word_testbit by lia.
      destruct (Z.ltb_spec n 12); [lia|].
      symmetry. apply testbit_above with (k := 4); lia.
  - rewrite EXTRACT_testbit, response_word_testbit by lia.
    destruct (Z.ltb_spec (n + 12) 12); [lia|].
    replace (n + 12 - 12) with n by lia.
    destruct (Z.ltb_spec n 4); [reflexivity|].
    symmetry. apply testbit_above with (k := 4); lia.
  - rewrite EXTRACT_testbit, response_word_testbit by lia.
    rewrite Z.add_0_r.
    destruct (Z.ltb_spec n 12); [reflexivity|].
    symmetry. apply testbit_above with (k := 12); lia.
Qed.

(** X6: [EXTRACT] splits a 16-bit response word into its channel tag and its
    conversion code and loses nothing: the tag is below 16, the code below
    4096, and the word is the tag shifted by 12 or-ed with the code. *)
Theorem EXTRACT_response_word (w : Z) :
  0 <= w < 2 ^ 16 ->
  0 <= EXTRACT w 12 4 < 16 /\
  0 <= EXTRACT w 0 12 < 2 ^ 12 /\
  response_word (EXTRACT w 12 4) (EXTRACT w 0 12) = w.
Proof.
  intros Hw.
  pose proof (EXTRACT_range w 12 4 ltac:(lia) ltac:(lia)) as Ht.
  pose proof (EXTRACT_range w 0 12 ltac:(lia) ltac:(lia)) as Hc.
  split; [exact Ht|]. split; [exact Hc|].
  apply Z.bits_inj'. intros n Hn.
  rewrite response_word_testbit by lia.
  destruct (Z.ltb_spec n 12).
  - rewrite EXTRACT_testbit by lia. rewrite Z.add_0_r.
    destruct (Z.ltb_spec n 12); [reflexivity | lia].
  - rewrite EXTRACT_testbit by lia.
    replace (n - 12 + 12) with n by lia.
    destruct (Z.ltb_spec (n - 12) 4); [reflexivity|].
    symmetry. apply testbit_above with (k := 16); lia.
Qed.

(** ** Scan-mode set-up: what it leaves alone, and repeated set-up *)

Lemma drop_scan_tx (cmds tx : list Z) :
  drop (length cmds + 2) (cmds ++ 0 :: 0 :: drop (length cmds + 2) tx) =
  drop (length cmds + 2) tx.
Proof.
  change (cmds ++ 0 :: 0 :: ?r) with (cmds ++ [0; 0] ++ r).
  rewrite app_assoc. apply drop_app_length'. rewrite length_app. reflexivity.
Qed.

(** The run of [ti_ads79xx_update_scan_mode] on a scan mask, with what the
    later proofs need of the machine it leaves. *)
Lemma update_scan_mode_scan_mask (id : ti_ads79xx_id) (mask : Z) (m : machine) :
  wf m -> probed_as id m -> scan_mask id mask ->
  let bits := set_bits_from mask 0 (Z.to_nat (dev_num_channels (indio_dev m))) in
  let cmds := map (fun c => encode c (settings (priv (indio_dev m)))) bits in
  let m' :=
    with_st (fun st =>
      set_ring_xfer_len ((Z.of_nat (length bits) + 2) * 2)
        (set_tx_buf
           (map (fun c => encode c (settings st)) bits
              ++ 0 :: 0 :: drop (length bits + 2) (tx_buf st)) st)) m in
  ti_ads79xx_update_scan_mode mask m = Some (0, m') /\
  wf m' /\ probed_as id m' /\
  Z.of_nat (length bits) = popcount mask /\
  length cmds = length bits.
Proof.
  intros Hwf Hid Hmask bits cmds m'.
  destruct (scan_mask_bits id mask m Hid Hmask) as (_ & Hcnt & Hpos & Hfit).
  fold bits in Hcnt.
  pose proof (wf_tx_buf m Hwf) as Htxl.
  assert (length cmds = length bits) as Hcl by apply length_map.
  split.
  { apply update_scan_mode_run; [exact Htxl | fold bits; lia]. }
  split; [|split; [exact Hid | split; [exact Hcnt | exact Hcl]]].
  apply wf_update_scan_mode; [| |exact Hwf].
  - fold cmds. rewrite <- Hcl. rewrite scan_tx_length; [exact Htxl|].
    rewrite Htxl, Hcl. unfold TX_BUF_SIZE, ADS79XX_MAX_CHAN in *. lia.
  - unfold TX_BUF_SIZE, ADS79XX_MAX_CHAN in *. lia.
Qed.

(** X7: [ti_ads79xx_update_scan_mode] makes no kernel call and writes only
    the first [popcount + 2] words of the TX buffer and the length of the
    ring transfer: the rest of the TX buffer, the RX buffer, the settings
    word and the single-shot scalars are as before, and the machine stays
    well formed. *)
Theorem update_scan_mode_frame (id : ti_ads79xx_id) (mask : Z) (m : machine) :
  wf m -> probed_as id m -> scan_mask id mask ->
  exists m',
    ti_ads79xx_update_scan_mode mask m = Some (0, m') /\
    wf m' /\
    klog m' = klog m /\
    drop (Z.to_nat (popcount mask + 2)) (tx_buf (priv (indio_dev m'))) =
      drop (Z.to_nat (popcount mask + 2)) (tx_buf (priv (indio_dev m))) /\
    rx_buf (priv (indio_dev m')) = rx_buf (priv (indio_dev m)) /\
    settings (priv (indio_dev m')) = settings (priv (indio_dev m)) /\
    single_tx (priv (indio_dev m')) = single_tx (priv (indio_dev m)) /\
    single_rx (priv (indio_dev m')) = single_rx (priv (indio_dev m)).
Proof.
  intros Hwf Hid Hmask.
  destruct (update_scan_mode_scan_mask id mask m Hwf Hid Hmask)
    as (Hrun & Hwf' & _ & Hcnt & Hcl).
  eexists. split; [exact Hrun|]. split; [exact Hwf'|].
  split; [reflexivity|]. split; [|repeat split].
  cbn [tx_buf priv indio_dev with_st set_ring_xfer_len set_ring_xfer set_tx_buf].
  rewrite <- Hcnt.
  replace (Z.to_nat (Z.of_nat (length (set_bits_from mask 0
             (Z.to_nat (dev_num_channels (indio_dev m))))) + 2))
    with (length (set_bits_from mask 0
             (Z.to_nat (dev_num_channels (indio_dev m)))) + 2)%nat by lia.
  rewrite <- Hcl. apply drop_scan_tx.
Qed.

(** X8: a scan-mode set-up overrides the one before it: after
    [update_scan_mode mask1] then [update_scan_mode mask2] the ring
    transfer and the words it will send are those of
    [update_scan_mode mask2] alone. *)
Theorem update_scan_mode_overrides (id : ti_ads79xx_id) (mask1 mask2 : Z)
    (m : machine) :
  wf m -> probed_as id m -> scan_mask id mask1 -> scan_mask id mask2 ->
  exists m1 m12 m2,
    ti_ads79xx_update_scan_mode mask1 m = Some (0, m1) /\
    ti_ads79xx_update_scan_mode mask2 m1 = Some (0, m12) /\
    ti_ads79xx_update_scan_mode mask2 m = Some (0, m2) /\
    ring_xfer (priv (indio_dev m12)) = ring_xfer (priv (indio_dev m2)) /\
    take (Z.to_nat (popcount mask2 + 2)) (tx_buf (priv (indio_dev m12))) =
      take (Z.to_nat (popcount mask2 + 2)) (tx_buf (priv (indio_dev m2))).
Proof.
  intros Hwf Hid Hm1 Hm2.
  destruct (update_scan_mode_scan_mask id mask1 m Hwf Hid Hm1)
    as (Hrun1 & Hwf1 & Hid1 & _ & _).
  cbv zeta in Hrun1, Hwf1, Hid1.
  set (m1 := with_st _ m) in *.
  destruct (update_scan_mode_scan_mask id mask2 m1 Hwf1 Hid1 Hm2)
    as (Hrun12 & _ & _ & Hcnt & Hcl).
  destruct (update_scan_mode_scan_mask id mask2 m Hwf Hid Hm2)
    as (Hrun2 & _ & _ & _ & _).
  cbv zeta in Hrun12, Hrun2, Hcnt, Hcl.
  exists m1. do 2 eexists.
  split; [exact Hrun1|]. split; [exact Hrun12|]. split; [exact Hrun2|].
  split; [reflexivity|].
  cbn [tx_buf priv indio_dev with_st set_ring_xfer_len set_ring_xfer set_tx_buf
       settings dev_num_channels m1] in *.
  rewrite <- Hcnt.
  set (bits := set_bits_from mask2 0 _) in *.
  set (cmds := map _ bits) in *.
  replace (Z.to_nat (Z.of_nat (length bits) + 2)) with (length cmds + 2)%nat by lia.
  rewrite <- Hcl.
  change (cmds ++ 0 :: 0 :: ?r) with (cmds ++ [0; 0] ++ r).
  rewrite !app_assoc.
  rewrite !take_app_length' by (rewrite length_app; reflexivity).
  reflexivity.
Qed.

(** X9: [ti_ads79xx_update_scan_mode] is idempotent: run again with the same
    scan mask it leaves the machine exactly as the first run left it. *)
Theorem update_scan_mode_idempotent (id : ti_ads79xx_id) (mask : Z) (m : machine) :
  wf m -> probed_as id m -> scan_mask id mask ->
  exists m1,
    ti_ads79xx_update_scan_mode mask m = Some (0, m1) /\
    ti_ads79xx_update_scan_mode mask m1 = Some (0, m1).
Proof.
  intros Hwf Hid Hmask.
  destruct (update_scan_mode_scan_mask id mask m Hwf Hid Hmask)
    as (Hrun1 & Hwf1 & Hid1 & _ & Hcl).
  cbv zeta in Hrun1, Hwf1, Hid1, Hcl.
  set (m1 := with_st _ m) in *.
  destruct (update_scan_mode_scan_mask id mask m1 Hwf1 Hid1 Hmask)
    as (Hrun2 & _).
  cbv zeta in Hrun2.
  exists m1. split; [exact Hrun1|].
  rewrite Hrun2. do 2 f_equal.
  unfold m1, with_st, set_ring_xfer_len, set_ring_xfer, set_tx_buf.
  cbn [tx_buf priv indio_dev settings dev_num_channels dev_channels klog
       ring_xfer scan_single_xfer ring_msg scan_single_msg single_tx single_rx
       reg hrtimer_trigger rx_buf Spi.tx_buf Spi.rx_buf Spi.len Spi.cs_change].
  set (bits := set_bits_from mask 0 _) in *.
  set (cmds := map _ bits) in *.
  rewrite <- Hcl, drop_scan_tx. reflexivity.
Qed.

Lemma for_each_set_bit_from_ext {A} (mask mask' : Z) (body : Z -> A -> drv A) :
  forall (n : nat) (bit : Z) (acc : A) (m : machine),
    (forall i, bit <= i < bit + Z.of_nat n -> Z.testbit mask i = Z.testbit mask' i) ->
    for_each_set_bit_from mask bit n body acc m =
    for_each_set_bit_from mask' bit n body acc m.
Proof.
  induction n as [|n IH]; intros bit acc m Hbits; cbn [for_each_set_bit_from];
    [reflexivity|].
  rewrite !bind_run, (Hbits bit) by lia.
  destruct (Z.testbit mask' bit).
  - destruct (body bit acc m) as [[a m1]|]; [|reflexivity].
    apply IH; intros i Hi; apply Hbits; lia.
  - unfold mret, drv_ret. apply IH; intros i Hi; apply Hbits; lia.
Qed.

(** X10: only the bits of the scan mask below [num_channels] count: bits at
    or above it are never looked at, so a mask and its low [num_channels]
    bits give the same run. *)
Theorem update_scan_mode_high_bits (mask : Z) (m : machine) :
  ti_ads79xx_update_scan_mode mask m =
  ti_ads79xx_update_scan_mode (mask mod 2 ^ dev_num_channels (indio_dev m)) m.
Proof.
  unfold ti_ads79xx_update_scan_mode, for_each_set_bit.
  rewrite !bind_run. cbn [get_dev]. rewrite !bind_run.
  rewrite (for_each_set_bit_from_ext mask
             (mask mod 2 ^ dev_num_channels (indio_dev m))); [reflexivity|].
  intros i Hi. symmetry. apply Z.mod_pow2_bits_low. lia.
Qed.

Section MoreDriverProperties.

Context {abi : linux_abi}.

(** The trigger handler on a well-formed machine, in full. *)
Lemma trigger_handler_run (reply : Spi.reply) (now : Z) (m : machine) :
  wf m ->
  let st := priv (indio_dev m) in
  let n := Z.to_nat (Spi.len (ring_xfer st) / 2) in
  let rx := map to_u16 (map (Spi.miso reply) (seq 0 n)) ++ drop n (rx_buf st) in
  ti_ads79xx_trigger_handler reply now m =
    if decide (Spi.ret reply = 0) then
      Some (IRQ_HANDLED,
            log_call k_iio_trigger_notify_done
              (log_call (k_iio_push_to_buffers_with_timestamp 2 (drop 2 rx) now)
                 (log_call (k_spi_sync (take n (tx_buf st)))
                    (with_st (set_rx_buf rx) m))))
    else
      Some (IRQ_HANDLED,
            log_call k_iio_trigger_notify_done (log_call (k_spi_sync []) m)).
Proof.
  intros Hwf st n rx. unfold ti_ads79xx_trigger_handler.
  rewrite bind_run. cbn [get_st]. rewrite bind_run.
  destruct (decide (Spi.ret reply = 0)) as [Hret | Hret].
  - pose proof (spi_sync_ring reply m Hwf Hret) as Hspi.
    cbv zeta in Hspi. rewrite Hspi. clear Hspi.
    rewrite decide_False by lia.
    rewrite !bind_run. cbn [get_st kernel]. rewrite !bind_run.
    reflexivity.
  - rewrite spi_sync_fail by assumption.
    rewrite decide_True by assumption.
    rewrite !bind_run. reflexivity.
Qed.

(** X1: on a probed device (settings word MANUAL | RANGE_5V), after
    [ti_ads79xx_update_scan_mode] for a scan mask whose set bits in
    ascending order are [chans], one run of the trigger handler with a
    successful transfer sends exactly the command words
    [MANUAL | WRITE | (channel << 7) | settings] of [chans], in that order,
    and two zero words; the sample of the k-th selected channel is the
    word received at position k + 2, and these are the first words of the
    pushed payload. *)
Theorem scan_pipeline (id : ti_ads79xx_id) (mask : Z) (chans : list Z)
    (reply : Spi.reply) (now : Z) (m : machine) :
  driver_inv id m -> scan_mask id mask -> set_bits_ascending mask chans ->
  Spi.ret reply = 0 ->
  exists (m1 m2 : machine) (payload : list Z),
    ti_ads79xx_update_scan_mode mask m = Some (0, m1) /\
    ti_ads79xx_trigger_handler reply now m1 = Some (IRQ_HANDLED, m2) /\
    klog m2 = klog m ++
      [k_spi_sync (map (fun c => spec_encode c probed_settings) chans ++ [0; 0]);
       k_iio_push_to_buffers_with_timestamp 2 payload now;
       k_iio_trigger_notify_done] /\
    take (length chans) payload =
      map (fun k => to_u16 (Spi.miso reply k)) (seq 2 (length chans)).
Proof.
  intros (Hwf & Hid & Hs) Hmask Hchans Hret.
  destruct (scan_mask_bits id mask m Hid Hmask) as (Hasc & Hcnt & Hpos & Hfit).
  assert (chans = set_bits_from mask 0 (Z.to_nat (dev_num_channels (indio_dev m))))
    as Heq by (eapply set_bits_ascending_unique; eassumption).
  rewrite <- (scan_cmds_spec_encode id mask chans Hmask Hchans).
  unfold probed_settings. rewrite <- Hs. rewrite Heq. clear Heq Hchans chans.
  set (bits := set_bits_from mask 0 (Z.to_nat (dev_num_channels (indio_dev m)))) in *.
  set (s := settings (priv (indio_dev m))).
  set (cmds := map (fun c => encode c s) bits).
  assert (length cmds = length bits) as Hcl by apply length_map.
  pose proof (wf_tx_buf m Hwf) as Htxl.
  assert (Z.of_nat (length bits) + 2 <= TX_BUF_SIZE) as Hfit' by lia.
  pose proof (update_scan_mode_run mask m Htxl Hfit') as Hrun.
  cbv zeta in Hrun. fold bits s cmds in Hrun.
  set (tx1 := cmds ++ 0 :: 0 :: drop (length bits + 2) (tx_buf (priv (indio_dev m)))) in *.
  set (m1 := with_st _ m) in Hrun.
  assert (wf m1) as Hwf1.
  { apply wf_update_scan_mode; [| |exact Hwf].
    - unfold tx1. rewrite <- Hcl. rewrite scan_tx_length; [exact Htxl|].
      rewrite Htxl, Hcl. unfold TX_BUF_SIZE, ADS79XX_MAX_CHAN in *. lia.
    - unfold TX_BUF_SIZE, ADS79XX_MAX_CHAN in *. lia. }
  pose proof (trigger_handler_run reply now m1 Hwf1) as Hh.
  cbv zeta in Hh. rewrite decide_True in Hh by assumption.
  assert (Z.to_nat (Spi.len (ring_xfer (priv (indio_dev m1))) / 2) = (length bits + 2)%nat)
    as Hn.
  { cbn. rewrite Z.div_mul by lia. lia. }
  rewrite Hn in Hh.
  assert (take (length bits + 2) (tx_buf (priv (indio_dev m1))) = cmds ++ [0; 0])
    as Htake.
  { change (tx_buf (priv (indio_dev m1))) with tx1. unfold tx1.
    change (cmds ++ 0 :: 0 :: ?r) with (cmds ++ [0; 0] ++ r).
    rewrite app_assoc, <- Hcl. apply take_app_length'.
    rewrite length_app. reflexivity. }
  rewrite Htake in Hh.
  change (rx_buf (priv (indio_dev m1))) with (rx_buf (priv (indio_dev m))) in Hh.
  set (rx := map to_u16 (map (Spi.miso reply) (seq 0 (length bits + 2)))
               ++ drop (length bits + 2) (rx_buf (priv (indio_dev m)))) in Hh.
  exists m1.
  eexists. exists (drop 2 rx).
  split; [exact Hrun|]. split; [exact Hh|].
  split.
  - cbn [klog log_call with_st]. change (klog m1) with (klog m).
    rewrite <- !app_assoc. reflexivity.
  - unfold rx. rewrite map_map.
    replace (length bits + 2)%nat with (2 + length bits)%nat by lia.
    rewrite seq_app, map_app, <- app_assoc.
    rewrite drop_app_length' by reflexivity.
    rewrite take_app_length' by (rewrite length_map, length_seq; reflexivity).
    reflexivity.
Qed.

(** ** Single-shot read: locking, wire words, interference *)

(** X2: on every path of [ti_ads79xx_scan_direct] (sample, wrong tag, SPI
    error) the device lock is taken first and released last, with the one
    SPI exchange in between; when the exchange succeeds the words sent are
    the command word twice and a zero word. *)
Theorem scan_direct_locking (ch : Z) (reply : Spi.reply) (m : machine) :
  wf m ->
  exists (r : Z) (m' : machine) (sent : list Z),
    ti_ads79xx_scan_direct ch reply m = Some (r, m') /\
    klog m' = klog m ++ [k_mutex_lock; k_spi_sync sent; k_mutex_unlock] /\
    (Spi.ret reply = 0 ->
     sent = [encode ch (settings (priv (indio_dev m)));
             encode ch (settings (priv (indio_dev m))); 0]).
Proof.
  intros Hwf.
  pose proof (scan_direct_run ch reply m Hwf) as Hrun. cbv zeta in Hrun.
  destruct (decide (Spi.ret reply = 0)) as [Hret | Hret];
    do 3 eexists; (split; [exact Hrun|]); split.
  - cbn [klog log_call with_st]. rewrite <- !app_assoc. reflexivity.
  - intros _. reflexivity.
  - cbn [klog log_call with_st]. rewrite <- !app_assoc. reflexivity.
  - intros Hz. contradiction.
Qed.

(** X3: a single-shot read writes [single_tx], [single_rx] and nothing
    else of the device: the TX and RX buffers of the scan, the ring
    transfer with its length, the settings word and the channel table are
    as before, whatever the bus answers. *)
Theorem scan_direct_frame (ch : Z) (reply : Spi.reply) (m : machine) :
  wf m ->
  exists (r : Z) (m' : machine),
    ti_ads79xx_scan_direct ch reply m = Some (r, m') /\
    tx_buf (priv (indio_dev m')) = tx_buf (priv (indio_dev m)) /\
    rx_buf (priv (indio_dev m')) = rx_buf (priv (indio_dev m)) /\
    ring_xfer (priv (indio_dev m')) = ring_xfer (priv (indio_dev m)) /\
    settings (priv (indio_dev m')) = settings (priv (indio_dev m)) /\
    dev_num_channels (indio_dev m') = dev_num_channels (indio_dev m) /\
    single_tx (priv (indio_dev m')) = encode ch (settings (priv (indio_dev m))).
Proof.
  intros Hwf.
  pose proof (scan_direct_run ch reply m Hwf) as Hrun. cbv zeta in Hrun.
  destruct (decide (Spi.ret reply = 0)) as [Hret | Hret];
    do 2 eexists; (split; [exact Hrun|]); repeat split.
Qed.

(** X4: [ti_ads79xx_read_raw] with the RAW mask passes a failed single-shot
    read on: a negative SPI code is returned as it is, a wrong channel tag
    gives [-EAGAIN], and in both cases [*val] and [*val2] are not
    written. *)
Theorem read_raw_error (chan : iio_chan_spec) (val val2 voltage : Z)
    (reply : Spi.reply) (m : machine) :
  wf m ->
  0 < EAGAIN ->
  let ch := to_u32 (address chan) in
  let rx := to_u16 (Spi.miso reply 2) in
  exists (r : Z) (m' : machine),
    ti_ads79xx_scan_direct ch reply m = Some (r, m') /\
    (Spi.ret reply < 0 ->
     ti_ads79xx_read_raw chan val val2 IIO_CHAN_INFO_RAW reply voltage m =
       Some ((Spi.ret reply, val, val2), m')) /\
    (Spi.ret reply = 0 -> EXTRACT rx 12 4 ≠ ch ->
     ti_ads79xx_read_raw chan val val2 IIO_CHAN_INFO_RAW reply voltage m =
       Some ((- EAGAIN, val, val2), m')).
Proof.
  intros Hwf Hpos ch rx.
  pose proof (scan_direct_run ch reply m Hwf) as Hrun. cbv zeta in Hrun.
  fold rx in Hrun.
  unfold ti_ads79xx_read_raw. rewrite decide_True by reflexivity.
  fold ch. rewrite bind_run, Hrun.
  destruct (decide (Spi.ret reply = 0)) as [Hret | Hret].
  - destruct (decide (EXTRACT rx 12 4 ≠ ch)) as [Hne | Heq];
      do 2 eexists; (split; [reflexivity|]); split.
    + intros Hneg. lia.
    + intros _ _. rewrite decide_True by lia. reflexivity.
    + intros Hneg. lia.
    + intros _ Hne. contradiction.
  - do 2 eexists. split; [reflexivity|]. split.
    + intros Hneg. rewrite decide_True by assumption. reflexivity.
    + intros Hz. contradiction.
Qed.

(** X5: round trip through the response word: when the bus answers the
    single-shot read of channel [ch] with the word carrying tag [ch] and
    code [code], the read returns [code]. *)
Theorem scan_direct_round_trip (ch code : Z) (reply : Spi.reply) (m : machine) :
  wf m ->
  0 <= ch < 16 -> 0 <= code < 2 ^ 12 ->
  Spi.ret reply = 0 ->
  Spi.miso reply 2 = response_word ch code ->
  exists m', ti_ads79xx_scan_direct ch reply m = Some (code, m').
Proof.
  intros Hwf Hch Hcode Hret Hword.
  pose proof (scan_direct_run ch reply m Hwf) as Hrun. cbv zeta in Hrun.
  rewrite decide_True in Hrun by assumption.
  rewrite Hword in Hrun.
  destruct (response_word_fields ch code Hch Hcode) as (Hu & Htag & Hval).
  rewrite Hu, Htag, Hval in Hrun.
  rewrite decide_False in Hrun by (intros Hne; apply Hne; reflexivity).
  eexists. exact Hrun.
Qed.

(** ** No access outside a buffer *)

(** X11: on every machine a probed device reaches, the trigger handler, the
    single-shot read and [read_raw] run to their return for every answer
    of the bus and the regulator, and so does the scan-mode set-up for
    every scan mask: none of them leaves a buffer of the driver state. *)
Theorem reachable_no_fault (id : ti_ads79xx_id) (m : machine) :
  errno_ok abi ->
  reachable id m ->
  (forall reply now, is_Some (ti_ads79xx_trigger_handler reply now m)) /\
  (forall ch reply, is_Some (ti_ads79xx_scan_direct ch reply m)) /\
  (forall chan val val2 mask reply voltage,
     is_Some (ti_ads79xx_read_raw chan val val2 mask reply voltage m)) /\
  (forall mask, scan_mask id mask -> is_Some (ti_ads79xx_update_scan_mode mask m)).
Proof.
  intros Habi Hreach.
  destruct (reachable_inv id m Habi Hreach) as (Hwf & Hid & _).
  assert (forall ch reply, is_Some (ti_ads79xx_scan_direct ch reply m)) as Hdirect.
  { intros ch reply. rewrite (scan_direct_run ch reply m Hwf). cbv zeta.
    destruct (decide _); eexists; reflexivity. }
  split; [|split; [exact Hdirect | split]].
  - intros reply now. rewrite (trigger_handler_run reply now m Hwf). cbv zeta.
    destruct (decide _); eexists; reflexivity.
  - intros chan val val2 mask reply voltage. unfold ti_ads79xx_read_raw.
    destruct (decide _); [|destruct (decide _)].
    + rewrite bind_run.
      destruct (Hdirect (to_u32 (address chan)) reply) as [[r m'] ->].
      destruct (decide _); eexists; reflexivity.
    + rewrite bind_run. unfold ti_ads79xx_get_range.
      rewrite bind_run. cbn [get_st]. rewrite bind_run. cbn [kernel]. cbv zeta.
      destruct (decide (voltage < 0)); unfold mret, drv_ret;
        destruct (decide _); eexists; reflexivity.
    + eexists. reflexivity.
  - intros mask Hmask.
    destruct (update_scan_mode_scan_mask id mask m Hwf Hid Hmask) as (Hrun & _).
    rewrite Hrun. eexists. reflexivity.
Qed.

(** ** Probe and remove *)

Lemma is_err_code (p : Z) :
  0 <= MAX_ERRNO < 2 ^ 31 -> IS_ERR p = true ->
  to_int (PTR_ERR p) = p /\ p < 0.
Proof.
  intros Hmax Hp. unfold IS_ERR in Hp.
  apply andb_prop in Hp as [Hlo Hhi].
  apply Z.leb_le in Hlo. apply Z.ltb_lt in Hhi.
  split; [|exact Hhi].
  unfold PTR_ERR. apply to_int_small.
  unfold int_range, INT_MIN, INT_MAX. lia.
Qed.

(** Every run of probe, by its outcome: either it returns 0, having made
    its eight kernel calls with every one successful, or it returns a
    non-zero code and has given back, last acquired first, what it had
    acquired. *)
Lemma probe_cases (id : ti_ads79xx_id) (env : probe_env) :
  errno_ok abi ->
  exists r m,
    ti_ads79xx_probe id env boot = Some (r, m) /\
    (r = 0 /\
     klog m = [k_spi_setup; k_devm_iio_device_alloc; k_devm_regulator_get;
               k_regulator_enable; k_iio_triggered_buffer_setup;
               k_iio_device_register; k_iio_sw_trigger_create;
               k_iio_trigger_set_immutable] /\
     acquired env (klog m) =
       [R_REGULATOR; R_TRIGGERED_BUFFER; R_IIO_DEVICE; R_SW_TRIGGER] \/
     r ≠ 0 /\ released (klog m) = rev (acquired env (klog m))).
Proof.
  intros [Hnomem Hmax].
  unfold ti_ads79xx_probe, error_unregister_iio_device, error_cleanup_ring,
    error_disable_reg, modify_st.
  repeat (rewrite bind_run; cbn [kernel get_st put_st set_dev_channels]).
  cbv zeta.
  destruct (decide (spi_setup_ret env < 0)) as [Hneg|_].
  { do 2 eexists. split; [reflexivity|]. right. split; [lia | reflexivity]. }
  destruct (devm_iio_device_alloc_ok env); cbn [negb].
  2:{ do 2 eexists. split; [reflexivity|]. right. split; [lia | reflexivity]. }
  repeat (rewrite bind_run; cbn [kernel get_st put_st set_dev_channels]).
  cbn [with_st log_call indio_dev priv klog reg set_reg].
  destruct (IS_ERR (devm_regulator_get_ptr env)) eqn:Hreg.
  { destruct (is_err_code _ Hmax Hreg) as [Hcode Hlt].
    rewrite bind_run.
    destruct (decide (to_int (PTR_ERR (devm_regulator_get_ptr env)) ≠ - EPROBE_DEFER));
      cbn [kernel]; unfold mret, drv_ret;
      do 2 eexists; (split; [reflexivity|]); right;
      (split; [rewrite Hcode; lia | reflexivity]). }
  repeat (rewrite bind_run; cbn [kernel get_st put_st set_dev_channels]).
  destruct (decide (regulator_enable_ret env ≠ 0)) as [Hen|Hen].
  { do 2 eexists. split; [reflexivity|]. right. split; [exact Hen|].
    cbn. rewrite decide_False by exact Hen. reflexivity. }
  apply dec_stable in Hen.
  repeat (rewrite bind_run; cbn [kernel get_st put_st set_dev_channels]).
  destruct (decide (iio_triggered_buffer_setup_ret env ≠ 0)) as [Hbuf|Hbuf].
  { do 2 eexists. split; [reflexivity|]. right. split; [exact Hbuf|].
    cbn. rewrite decide_True by exact Hen.
    rewrite decide_False by exact Hbuf. reflexivity. }
  apply dec_stable in Hbuf.
  repeat (rewrite bind_run; cbn [kernel get_st put_st set_dev_channels]).
  destruct (decide (iio_device_register_ret env ≠ 0)) as [Hdev|Hdev].
  { do 2 eexists. split; [reflexivity|]. right. split; [exact Hdev|].
    cbn. rewrite decide_True by exact Hen. rewrite decide_True by exact Hbuf.
    rewrite decide_False by exact Hdev. reflexivity. }
  apply dec_stable in Hdev.
  repeat (rewrite bind_run; cbn [kernel get_st put_st set_dev_channels]).
  cbn [with_st log_call indio_dev priv klog hrtimer_trigger set_hrtimer_trigger].
  destruct (IS_ERR (iio_sw_trigger_create_ptr env)) eqn:Htrig.
  { destruct (is_err_code _ Hmax Htrig) as [Hcode Hlt].
    repeat (rewrite bind_run; cbn [kernel]).
    do 2 eexists. split; [reflexivity|]. right. split; [rewrite Hcode; lia|].
    cbn. rewrite decide_True by exact Hen. rewrite decide_True by exact Hbuf.
    rewrite decide_True by exact Hdev. rewrite Htrig. reflexivity. }
  repeat (rewrite bind_run; cbn [kernel]).
  do 2 eexists. split; [reflexivity|]. left. split; [reflexivity|].
  split; [reflexivity|].
  cbn. rewrite decide_True by exact Hen. rewrite decide_True by exact Hbuf.
  rewrite decide_True by exact Hdev. rewrite Htrig. reflexivity.
Qed.

(** X12: [ti_ads79xx_probe] always returns, and when it returns a non-zero
    code it holds nothing: the regulator it enabled, the triggered buffer
    it set up and the device it registered have been given back, the last
    acquired first; when it returns 0 it holds the regulator, the
    triggered buffer, the device and the software trigger and has given
    nothing back. *)
Theorem probe_unwinds (id : ti_ads79xx_id) (env : probe_env) :
  errno_ok abi ->
  exists r m,
    ti_ads79xx_probe id env boot = Some (r, m) /\
    (r ≠ 0 -> released (klog m) = rev (acquired env (klog m))) /\
    (r = 0 ->
     acquired env (klog m) =
       [R_REGULATOR; R_TRIGGERED_BUFFER; R_IIO_DEVICE; R_SW_TRIGGER] /\
     released (klog m) = []).
Proof.
  intros Habi.
  destruct (probe_cases id env Habi) as (r & m & Hrun & [(Hr & Hlog & Hacq) | (Hr & Hrel)]);
    exists r, m; (split; [exact Hrun|]); split.
  - intros Hne. contradiction.
  - intros _. split; [exact Hacq|]. rewrite Hlog. reflexivity.
  - intros _. exact Hrel.
  - intros Hz. contradiction.
Qed.

(** X13: when [devm_regulator_get] answers with an error pointer, probe
    returns its code without enabling a regulator or registering the
    device, and it logs an error unless the code is [-EPROBE_DEFER]. *)
Theorem probe_regulator_error (id : ti_ads79xx_id) (env : probe_env) :
  0 <= MAX_ERRNO < 2 ^ 31 ->
  ~ spi_setup_ret env < 0 ->
  devm_iio_device_alloc_ok env = true ->
  IS_ERR (devm_regulator_get_ptr env) = true ->
  exists m,
    ti_ads79xx_probe id env boot = Some (devm_regulator_get_ptr env, m) /\
    count_call is_dev_err (klog m) =
      (if decide (devm_regulator_get_ptr env = - EPROBE_DEFER) then 0 else 1)%nat /\
    count_call is_regulator_enable (klog m) = 0%nat /\
    count_call is_device_register (klog m) = 0%nat.
Proof.
  intros Hmax Hspi Halloc Hreg.
  destruct (is_err_code _ Hmax Hreg) as [Hcode _].
  unfold ti_ads79xx_probe, modify_st.
  repeat (rewrite bind_run; cbn [kernel get_st put_st set_dev_channels]).
  cbv zeta. rewrite decide_False by exact Hspi.
  rewrite Halloc. cbn [negb].
  repeat (rewrite bind_run; cbn [kernel get_st put_st set_dev_channels]).
  cbn [with_st log_call indio_dev priv klog reg set_reg].
  rewrite Hreg, bind_run, Hcode.
  destruct (decide (devm_regulator_get_ptr env ≠ - EPROBE_DEFER)) as [Hne | Heq].
  - cbn [kernel]. unfold mret, drv_ret. eexists. split; [reflexivity|].
    rewrite decide_False by exact Hne. repeat split.
  - apply dec_stable in Heq. unfold mret, drv_ret.
    eexists. split; [reflexivity|].
    rewrite decide_True by exact Heq. repeat split.
Qed.

(** X14: remove after a successful probe returns 0 and gives back each
    resource probe acquired exactly once: the device first, then the
    software trigger, the triggered buffer, and the regulator last. *)
Theorem probe_remove (id : ti_ads79xx_id) (env : probe_env) (m : machine) :
  errno_ok abi ->
  ti_ads79xx_probe id env boot = Some (0, m) ->
  exists m',
    ti_ads79xx_remove m = Some (0, m') /\
    released (klog m') =
      [R_IIO_DEVICE; R_SW_TRIGGER; R_TRIGGERED_BUFFER; R_REGULATOR] /\
    released (klog m') ≡ₚ acquired env (klog m').
Proof.
  intros Habi Hprobe.
  destruct (probe_cases id env Habi) as (r & m0 & Hrun & Hcase).
  rewrite Hprobe in Hrun. injection Hrun as <- <-.
  destruct Hcase as [(_ & Hlog & Hacq) | (Hne & _)]; [|contradiction].
  unfold ti_ads79xx_remove.
  repeat (rewrite bind_run; cbn [kernel]).
  eexists. split; [reflexivity|].
  cbn [klog log_call]. unfold released, acquired in *.
  rewrite !omap_app. rewrite Hacq. rewrite Hlog.
  cbn. split; [reflexivity|].
  etransitivity;
    [symmetry;
     apply (Permutation_cons_append
              [R_IIO_DEVICE; R_SW_TRIGGER; R_TRIGGERED_BUFFER] R_REGULATOR)|].
  constructor. symmetry.
  apply (Permutation_cons_append [R_IIO_DEVICE; R_SW_TRIGGER] R_TRIGGERED_BUFFER).
Qed.

End MoreDriverProperties.

(** ** Channel tables and the ports driver *)

(** X15: in every variant's table the entry at position [i] below the
    channel count is the voltage channel with channel number, address and
    scan index [i]; the entry after them is the time stamp, with the
    channel count as scan index; [num_channels] counts them all; and the
    channel count is 4, 8, 12 or 16. *)
Theorem channel_table_layout (id : ti_ads79xx_id) :
  let n := num_voltage_channels id in
  num_channels (ti_ads79xx_chip_info id) = n + 1 /\
  (n = 4 \/ n = 8 \/ n = 12 \/ n = 16) /\
  (forall i, 0 <= i < n ->
     channels (ti_ads79xx_chip_info id) !! Z.to_nat i =
       Some (ADS79XX_V_CHAN i (variant_bits id))) /\
  channels (ti_ads79xx_chip_info id) !! Z.to_nat n =
    Some (IIO_CHAN_SOFT_TIMESTAMP n).
Proof.
  assert (forall i k, 0 <= i < k -> k <= 16 ->
            i = 0 \/ i = 1 \/ i = 2 \/ i = 3 \/ i = 4 \/ i = 5 \/ i = 6 \/ i = 7 \/
            i = 8 \/ i = 9 \/ i = 10 \/ i = 11 \/ i = 12 \/ i = 13 \/ i = 14 \/
            i = 15) as Hcases by (intros; lia).
  destruct id; cbv zeta;
    (split; [reflexivity|]);
    (split; [vm_compute; auto|]);
    (split; [|reflexivity]);
    intros i Hi;
    change (num_voltage_channels _) with 4 in Hi ||
    change (num_voltage_channels _) with 8 in Hi ||
    change (num_voltage_channels _) with 12 in Hi ||
    change (num_voltage_channels _) with 16 in Hi;
    destruct (Hcases i _ Hi ltac:(lia)) as
      [->|[->|[->|[->|[->|[->|[->|[->|[->|[->|[->|[->|[->|[->|[->| ->]]]]]]]]]]]]]]];
    try lia; reflexivity.
Qed.

(** X16: for every [int] that [of_platform_populate] can return,
    [evb_ports_probe] returns 0 when the value is not negative; on a
    negative value it logs an error and returns the value negated, which
    is positive except at [INT_MIN], where the negation wraps and the
    result is [INT_MIN] again.  So the result is negative exactly at
    [INT_MIN]. *)
Theorem evb_ports_probe_result (err : Z) (log : list Evb.kcall) :
  int_range err ->
  (0 <= err ->
   Evb.evb_ports_probe err log = (0, log ++ [Evb.k_of_platform_populate])) /\
  (INT_MIN < err < 0 ->
   Evb.evb_ports_probe err log =
     (- err, log ++ [Evb.k_of_platform_populate; Evb.k_dev_err]) /\
   0 < - err) /\
  (err = INT_MIN ->
   Evb.evb_ports_probe err log =
     (INT_MIN, log ++ [Evb.k_of_platform_populate; Evb.k_dev_err])) /\
  (fst (Evb.evb_ports_probe err log) < 0 <-> err = INT_MIN).
Proof.
  unfold int_range, INT_MIN, INT_MAX. intros Herr.
  unfold Evb.evb_ports_probe. cbv zeta.
  destruct (decide (err < 0)) as [Hneg | Hpos].
  - rewrite <- app_assoc. cbn [fst app].
    destruct (Z.eq_dec err (- 2 ^ 31)) as [-> | Hne].
    + split; [lia|]. split; [lia|]. split; [intros _; reflexivity|].
      split; [intros _; reflexivity | intros _; reflexivity].
    + rewrite to_int_small by (unfold int_range, INT_MIN, INT_MAX; lia).
      split; [lia|]. split; [intros _; split; [reflexivity | lia]|].
      split; [intros E; contradiction|]. split; [lia | intros E; contradiction].
  - cbn [fst]. split; [intros _; reflexivity|].
    split; [lia|]. split; [lia|]. split; lia.
Qed.

(** ** Concrete runs of the further properties *)

Lemma scan_mask_0x3 : scan_mask ADS7950 0x3.
Proof. vm_compute. split; [discriminate | reflexivity]. Qed.

Lemma scan_mask_0xA : scan_mask ADS7950 0xA.
Proof. vm_compute. split; [discriminate | reflexivity]. Qed.

(** Scan handler, mask = {0,1}, RX = [0, 0, 0x0AAA, 0x1BBB, 0]. *)
Lemma scan_pipeline_witness :
  set_bits_ascending 0x3 [0; 1] /\
  exists (m1 m2 : machine) (payload : list Z),
    ti_ads79xx_update_scan_mode 0x3 (probed ADS7950) = Some (0, m1) /\
    ti_ads79xx_trigger_handler (abi := linux_4)
      (bus 0 [0; 0; 0x0AAA; 0x1BBB; 0]) 5 m1 = Some (1, m2) /\
    klog m2 = klog (probed ADS7950) ++
      [k_spi_sync [0x1840; 0x18C0; 0; 0];
       k_iio_push_to_buffers_with_timestamp 2 payload 5;
       k_iio_trigger_notify_done] /\
    take 2 payload = [0x0AAA; 0x1BBB].
Proof.
  split; [exact set_bits_0x3|].
  exact (scan_pipeline (abi := linux_4) ADS7950 0x3 [0; 1]
           (bus 0 [0; 0; 0x0AAA; 0x1BBB; 0]) 5 (probed ADS7950)
           (probed_inv ADS7950) scan_mask_0x3 set_bits_0x3 eq_refl).
Defined.

Lemma scan_direct_locking_witness :
  exists (r : Z) (m' : machine) (sent : list Z),
    ti_ads79xx_scan_direct (abi := linux_4) 3 (bus (-5) []) (probed ADS7950)
      = Some (r, m') /\
    klog m' = klog (probed ADS7950)
                ++ [k_mutex_lock; k_spi_sync sent; k_mutex_unlock].
Proof.
  destruct (scan_direct_locking (abi := linux_4) 3 (bus (-5) []) (probed ADS7950)
              (probed_wf ADS7950))
    as (r & m' & sent & Hrun & Hlog & _).
  exists r, m', sent. auto.
Defined.

Lemma scan_direct_frame_witness :
  exists (r : Z) (m' : machine),
    ti_ads79xx_scan_direct (abi := linux_4) 3 (bus 0 [0; 0; 0x3ABC]) (probed ADS7950)
      = Some (r, m') /\
    tx_buf (priv (indio_dev m')) = tx_buf (priv (indio_dev (probed ADS7950))) /\
    rx_buf (priv (indio_dev m')) = rx_buf (priv (indio_dev (probed ADS7950))).
Proof.
  destruct (scan_direct_frame (abi := linux_4) 3 (bus 0 [0; 0; 0x3ABC])
              (probed ADS7950) (probed_wf ADS7950))
    as (r & m' & Hrun & Htx & Hrx & _).
  exists r, m'. auto.
Defined.

(** Wrong-channel echo through [read_raw]: channel 1 asked, tag 2 echoed. *)
Lemma read_raw_error_witness :
  exists m',
    ti_ads79xx_read_raw (abi := linux_4) (ADS79XX_V_CHAN 1 10) 7 9 0
      (bus 0 [0; 0; 0x2001]) 0 (probed ADS7954) =
    Some ((-11, 7, 9), m').
Proof.
  destruct (read_raw_error (abi := linux_4) (ADS79XX_V_CHAN 1 10) 7 9 0
              (bus 0 [0; 0; 0x2001]) (probed ADS7954) (probed_wf ADS7954))
    as (r & m' & _ & _ & Htag).
  { cbn. lia. }
  exists m'. apply Htag; [reflexivity | discriminate].
Defined.

Lemma scan_direct_round_trip_witness :
  exists m',
    ti_ads79xx_scan_direct (abi := linux_4) 3 (bus 0 [0; 0; response_word 3 0xABC])
      (probed ADS7950) = Some (0xABC, m').
Proof.
  apply (scan_direct_round_trip (abi := linux_4) 3 0xABC
           (bus 0 [0; 0; response_word 3 0xABC]) (probed ADS7950));
    [apply probed_wf | lia | lia | reflexivity | reflexivity].
Defined.

Lemma EXTRACT_response_word_witness :
  response_word (EXTRACT 0x3ABC 12 4) (EXTRACT 0x3ABC 0 12) = 0x3ABC.
Proof.
  apply (EXTRACT_response_word 0x3ABC). lia.
Defined.

Lemma update_scan_mode_frame_witness :
  exists m',
    ti_ads79xx_update_scan_mode 0x3 (probed ADS7950) = Some (0, m') /\
    wf m' /\
    klog m' = klog (probed ADS7950) /\
    rx_buf (priv (indio_dev m')) = rx_buf (priv (indio_dev (probed ADS7950))).
Proof.
  destruct (update_scan_mode_frame ADS7950 0x3 (probed ADS7950)
              (probed_wf ADS7950) (probed_probed_as ADS7950) scan_mask_0x3)
    as (m' & Hrun & Hwf & Hlog & _ & Hrx & _).
  exists m'. auto.
Defined.

Lemma update_scan_mode_overrides_witness :
  exists m1 m12 m2,
    ti_ads79xx_update_scan_mode 0xA (probed ADS7950) = Some (0, m1) /\
    ti_ads79xx_update_scan_mode 0x3 m1 = Some (0, m12) /\
    ti_ads79xx_update_scan_mode 0x3 (probed ADS7950) = Some (0, m2) /\
    ring_xfer (priv (indio_dev m12)) = ring_xfer (priv (indio_dev m2)).
Proof.
  destruct (update_scan_mode_overrides ADS7950 0xA 0x3 (probed ADS7950)
              (probed_wf ADS7950) (probed_probed_as ADS7950)
              scan_mask_0xA scan_mask_0x3)
    as (m1 & m12 & m2 & H1 & H2 & H3 & H4 & _).
  exists m1, m12, m2. auto.
Defined.

Lemma update_scan_mode_idempotent_witness :
  exists m1,
    ti_ads79xx_update_scan_mode 0x3 (probed ADS7950) = Some (0, m1) /\
    ti_ads79xx_update_scan_mode 0x3 m1 = Some (0, m1).
Proof.
  exact (update_scan_mode_idempotent ADS7950 0x3 (probed ADS7950)
           (probed_wf ADS7950) (probed_probed_as ADS7950) scan_mask_0x3).
Defined.

Lemma reachable_no_fault_witness :
  is_Some (ti_ads79xx_trigger_handler (abi := linux_4) (bus 0 []) 1 (probed ADS7953)).
Proof.
  exact (proj1 (reachable_no_fault (abi := linux_4) ADS7953 (probed ADS7953)
                  linux_4_errno_ok (probed_reachable ADS7953)) (bus 0 []) 1).
Defined.

(** A kernel in which [iio_device_register] fails with -5. *)
Lemma probe_unwinds_witness :
  exists r m,
    ti_ads79xx_probe (abi := linux_4) ADS7950
      {| spi_setup_ret := 0; devm_iio_device_alloc_ok := true;
         devm_regulator_get_ptr := 4096; regulator_enable_ret := 0;
         iio_triggered_buffer_setup_ret := 0; iio_device_register_ret := -5;
         iio_sw_trigger_create_ptr := 8192 |} boot = Some (r, m) /\
    r = -5 /\
    released (klog m) = [R_TRIGGERED_BUFFER; R_REGULATOR].
Proof.
  destruct (probe_unwinds (abi := linux_4) ADS7950
              {| spi_setup_ret := 0; devm_iio_device_alloc_ok := true;
                 devm_regulator_get_ptr := 4096; regulator_enable_ret := 0;
                 iio_triggered_buffer_setup_ret := 0; iio_device_register_ret := -5;
                 iio_sw_trigger_create_ptr := 8192 |} linux_4_errno_ok)
    as (r & m & Hrun & Hfail & _).
  exists r, m. split; [exact Hrun|].
  vm_compute in Hrun. injection Hrun as <- <-.
  split; [reflexivity|]. vm_compute. reflexivity.
Defined.

(** Probe with deferred regulator. *)
Lemma probe_regulator_error_witness :
  exists m,
    ti_ads79xx_probe (abi := linux_4) ADS7950
      {| spi_setup_ret := 0; devm_iio_device_alloc_ok := true;
         devm_regulator_get_ptr := -517; regulator_enable_ret := 0;
         iio_triggered_buffer_setup_ret := 0; iio_device_register_ret := 0;
         iio_sw_trigger_create_ptr := 8192 |} boot = Some (-517, m) /\
    count_call is_dev_err (klog m) = 0%nat /\
    count_call is_device_register (klog m) = 0%nat.
Proof.
  destruct (probe_regulator_error (abi := linux_4) ADS7950
              {| spi_setup_ret := 0; devm_iio_device_alloc_ok := true;
                 devm_regulator_get_ptr := -517; regulator_enable_ret := 0;
                 iio_triggered_buffer_setup_ret := 0; iio_device_register_ret := 0;
                 iio_sw_trigger_create_ptr := 8192 |})
    as (m & Hrun & Herr & _ & Hreg);
    [cbn; lia | cbn; lia | reflexivity | reflexivity |].
  exists m. split; [exact Hrun|]. split; [exact Herr | exact Hreg].
Defined.

Lemma probed_probe (id : ti_ads79xx_id) :
  ti_ads79xx_probe (abi := linux_4) id probe_ok_env boot = Some (0, probed id).
Proof. destruct id; vm_compute; reflexivity. Qed.

Lemma probe_remove_witness :
  exists m',
    ti_ads79xx_remove (probed ADS7950) = Some (0, m') /\
    released (klog m') =
      [R_IIO_DEVICE; R_SW_TRIGGER; R_TRIGGERED_BUFFER; R_REGULATOR].
Proof.
  destruct (probe_remove (abi := linux_4) ADS7950 probe_ok_env (probed ADS7950)
              linux_4_errno_ok (probed_probe ADS7950))
    as (m' & Hrun & Hrel & _).
  exists m'. auto.
Defined.

Lemma evb_ports_probe_result_witness :
  Evb.evb_ports_probe (-19) [] =
    (19, [Evb.k_of_platform_populate; Evb.k_dev_err]) /\
  Evb.evb_ports_probe INT_MIN [] =
    (INT_MIN, [Evb.k_of_platform_populate; Evb.k_dev_err]).
Proof.
  assert (int_range (-19)) as H1 by (vm_compute; split; discriminate).
  assert (int_range INT_MIN) as H2 by (vm_compute; split; discriminate).
  split.
  - apply (proj1 (proj1 (proj2 (evb_ports_probe_result (-19) [] H1))
                    ltac:(vm_compute; split; reflexivity))).
  - apply (proj1 (proj2 (proj2 (evb_ports_probe_result INT_MIN [] H2))) eq_refl).
Defined.
